(** * BMI calculator: the computation and its validation schema

    A shallow embedding of [client/src/pages/bmi-calculator.tsx] (unit
    conversion, the BMI formula, the four-way classification, the submit
    handler and the live-calculation effect) and of [bmiCalculationSchema]
    in [shared/schema.ts], followed by the properties the specification
    states about them.

    The TypeScript type [number] is IEEE-754 binary64.  The functions of the
    program are written once, over an interface [Number] of the arithmetic
    they use, and the interface has two instances: [binary64], the arithmetic
    the program really runs on (the executable specification [SpecFloat] of
    the standard library, round to nearest even), and [Q], exact rational
    arithmetic, which is what the specification's formulas are written in. *)

From Stdlib Require Import ZArith QArith Qfield Qabs Qpower Bool String List.
From Stdlib Require Import Lia Lqa Floats.SpecFloat.
Import ListNotations.

(** ** The arithmetic of the program *)

Declare Scope num_scope.
Delimit Scope num_scope with num.

(** What the program does with numbers: decimal literals, [*], [/], the
    comparisons [<] and [<=] (JavaScript's [a > b] is [b < a] and [a >= b] is
    [b <= a], also on NaN, where all four are false), [Number.isNaN] and
    [Number.isInteger].  [lit m k] is the literal whose digits are [m] with
    the decimal point [k] places from the right: [0.3048] is [lit 3048 4]. *)
Class Number (num : Type) : Type := {
  lit : Z -> nat -> num;
  mul : num -> num -> num;
  div : num -> num -> num;
  eqb : num -> num -> bool;
  ltb : num -> num -> bool;
  leb : num -> num -> bool;
  isNaN : num -> bool;
  isInteger : num -> bool
}.

Infix "*" := mul : num_scope.
Infix "/" := div : num_scope.
Notation "x <? y" := (ltb x y) : num_scope.
Notation "x <=? y" := (leb x y) : num_scope.
Notation "x >? y" := (ltb y x) (only parsing) : num_scope.
Notation "x >=? y" := (leb y x) (only parsing) : num_scope.
Notation "x < y" := (ltb x y = true) : num_scope.
Notation "x <= y" := (leb x y = true) : num_scope.
Notation "x > y" := (ltb y x = true) (only parsing) : num_scope.
Notation "x >= y" := (leb y x = true) (only parsing) : num_scope.

(** *** IEEE-754 binary64 *)

Definition prec : Z := 53.
Definition emax : Z := 1024.

Definition binary64 : Type := spec_float.

(** An integer as a binary64 number (exact below [2^53]). *)
Definition of_Z (z : Z) : binary64 := binary_normalize prec emax z 0 false.

(** A decimal literal denotes the binary64 number nearest to it.  Division is
    correctly rounded, so for digits and a power of ten that are themselves
    binary64 numbers (every literal of the program) this is the quotient. *)
Definition binary64_lit (m : Z) (k : nat) : binary64 :=
  SFdiv prec emax (of_Z m) (of_Z (10 ^ Z.of_nat k)).

Definition binary64_isNaN (x : binary64) : bool :=
  match x with
  | S754_nan => true
  | _ => false
  end.

Definition binary64_isInteger (x : binary64) : bool :=
  match x with
  | S754_zero _ => true
  | S754_finite _ m e =>
      if (0 <=? e)%Z then true else (Z.pos m mod 2 ^ (- e) =? 0)%Z
  | S754_infinity _ | S754_nan => false
  end.

#[export] Instance binary64_Number : Number binary64 := {
  lit := binary64_lit;
  mul := SFmul prec emax;
  div := SFdiv prec emax;
  eqb := SFeqb;
  ltb := SFltb;
  leb := SFleb;
  isNaN := binary64_isNaN;
  isInteger := binary64_isInteger
}.

(** *** Exact rational arithmetic

    The arithmetic in which the formulas of the specification are written.
    It is not the arithmetic of the program: nothing is rounded, nothing
    overflows or underflows, there is no NaN and no infinity, and a
    division by zero gives 0.  It is the reference that the results of the
    program are compared with. *)

Definition Q_lit (m : Z) (k : nat) : Q :=
  (inject_Z m / inject_Z (10 ^ Z.of_nat k))%Q.

#[export] Instance Q_Number : Number Q := {
  lit := Q_lit;
  mul := Qmult;
  div := Qdiv;
  eqb := Qeq_bool;
  ltb := fun x y => negb (Qle_bool y x);
  leb := Qle_bool;
  isNaN := fun _ => false;
  isInteger := fun x => (Qnum x mod Z.pos (Qden x) =? 0)%Z
}.

(** ** The program *)

(** [Omit<BMIResult, 'bmi'>], the value of [getBMICategory]. *)
Module CategoryInfo.
Record t : Type := Build {
  category : string;
  description : string;
  color : string
}.
End CategoryInfo.

(** An issue reported by the schema: where, what kind, and the message the
  schema gives for it (none: the library's default message). *)
Inductive issue_code : Type :=
| invalid_type
| invalid_enum_value
| too_small
| too_big.

Record issue : Type := {
path : string;
code : issue_code;
message : option string
}.

Section Program.

Context {num : Type} {N : Number num}.
Local Open Scope string_scope.
Local Open Scope num_scope.

(** [interface BMIResult] *)
Record BMIResult : Type := {
  bmi : num;
  category : string;
  description : string;
  color : string
}.

(** [BMICalculation], the type of a value that passed the schema. *)
Record BMICalculation : Type := {
  age : num;
  height : num;
  weight : num;
  heightUnit : string;
  weightUnit : string
}.

Definition convertHeight (value : num) (unit : string) : num :=
  if String.eqb unit "ft" then value * lit 3048 4
  else value / lit 100 0.

Definition convertWeight (value : num) (unit : string) : num :=
  if String.eqb unit "lbs" then value * lit 453592 6
  else value.

Definition getBMICategory (bmi : num) : CategoryInfo.t :=
  if bmi <? lit 185 1 then
    CategoryInfo.Build "Underweight"
      "You may need to gain weight. Consider consulting a healthcare provider."
      "text-blue-600"
  else if (bmi >=? lit 185 1) && (bmi <? lit 25 0) then
    CategoryInfo.Build "Normal Weight"
      "You have a healthy body weight. Keep up the good work!"
      "text-green-600"
  else if (bmi >=? lit 25 0) && (bmi <? lit 30 0) then
    CategoryInfo.Build "Overweight"
      "You may want to consider losing some weight for better health."
      "text-yellow-600"
  else
    CategoryInfo.Build "Obese"
      "Consider consulting a healthcare provider for a weight management plan."
      "text-red-600".

(** [{ bmi, ...categoryInfo }] *)
Definition spread (bmi : num) (categoryInfo : CategoryInfo.t) : BMIResult :=
  Build_BMIResult bmi
    (CategoryInfo.category categoryInfo)
    (CategoryInfo.description categoryInfo)
    (CategoryInfo.color categoryInfo).

(** The state of the component is the hook [result]; [setResult] replaces
    it.  A handler is a function from the state before to the state
    after. *)
Definition State : Type := option BMIResult.

Definition setResult (r : option BMIResult) (_ : State) : State := r.

Definition onSubmit (data : BMICalculation) : State -> State :=
  let heightInMeters := convertHeight (height data) (heightUnit data) in
  let weightInKg := convertWeight (weight data) (weightUnit data) in
  let bmi := weightInKg / (heightInMeters * heightInMeters) in
  let categoryInfo := getBMICategory bmi in
  setResult (Some (spread bmi categoryInfo)).

Definition resetForm : State -> State := setResult None.

(** The values of the form as [form.watch()] and the resolver see them: a
    numeric field registered with [valueAsNumber] holds [undefined] (its
    default) or a number, NaN when the input is empty; a unit holds a
    string. *)
Record FormValues : Type := {
  w_age : option num;
  w_height : option num;
  w_weight : option num;
  w_heightUnit : string;
  w_weightUnit : string
}.

(** JavaScript's ToBoolean on [number | undefined]: [undefined], [0], [-0]
    and NaN are false. *)
Definition truthy (v : option num) : bool :=
  match v with
  | None => false
  | Some x => negb (isNaN x || eqb x (lit 0 0))
  end.

(** The body of the live-calculation [useEffect]. *)
Definition useEffect (watchedValues : FormValues) : State -> State :=
  match w_age watchedValues, w_height watchedValues, w_weight watchedValues with
  | Some age, Some height, Some weight =>
      if truthy (Some age) && truthy (Some height) && truthy (Some weight)
         && (age >=? lit 1 0) && (age <=? lit 120 0)
         && (height >? lit 0 0) && (weight >? lit 0 0)
      then
        let heightInMeters := convertHeight height (w_heightUnit watchedValues) in
        let weightInKg := convertWeight weight (w_weightUnit watchedValues) in
        let bmi := weightInKg / (heightInMeters * heightInMeters) in
        let categoryInfo := getBMICategory bmi in
        setResult (Some (spread bmi categoryInfo))
      else fun result => result
  | _, _, _ => fun result => result
  end.

(** *** The validation schema

    The schema is built with the zod library, whose behaviour is modelled
    here as its documentation gives it.  [z.number()] accepts a value of
    type number that is not NaN (an infinity passes); [.min(v, message)]
    reports [too_small] with [message] when [input < v], [.max(v, message)]
    reports [too_big] with [message] when [input > v], so both bounds are
    inclusive; every failed check is reported.  [z.enum(options)] accepts
    the strings listed.  [z.object] succeeds with the parsed fields when no
    field reports an issue, and otherwise fails with the issues of all the
    fields. *)
Inductive check : Type :=
| Min (value : num) (message : string)
| Max (value : num) (message : string).

Definition run_check (path : string) (input : num) (c : check) : list issue :=
  match c with
  | Min value message =>
      if input <? value then [Build_issue path too_small (Some message)] else []
  | Max value message =>
      if input >? value then [Build_issue path too_big (Some message)] else []
  end.

Definition parse_number (path : string) (checks : list check)
    (input : option num) : num + list issue :=
  match input with
  | None => inr [Build_issue path invalid_type None]
  | Some x =>
      if isNaN x then inr [Build_issue path invalid_type None]
      else
        match flat_map (run_check path x) checks with
        | [] => inl x
        | issues => inr issues
        end
  end.

Definition parse_enum (path : string) (options : list string)
    (input : string) : string + list issue :=
  if existsb (String.eqb input) options then inl input
  else inr [Build_issue path invalid_enum_value None].

Definition issues_of {A : Type} (r : A + list issue) : list issue :=
  match r with
  | inl _ => []
  | inr issues => issues
  end.

(** The shape of a [z.object] over the five fields of the form. *)
Record Schema : Type := {
  s_age : list check;
  s_height : list check;
  s_weight : list check;
  s_heightUnit : list string;
  s_weightUnit : list string
}.

Definition bmiCalculationSchema : Schema := {|
  s_age := [Min (lit 1 0) "Age must be at least 1";
            Max (lit 120 0) "Age must be less than 120"];
  s_height := [Min (lit 1 1) "Height must be greater than 0"];
  s_weight := [Min (lit 1 1) "Weight must be greater than 0"];
  s_heightUnit := ["cm"; "ft"];
  s_weightUnit := ["kg"; "lbs"]
|}.

Definition safeParse (schema : Schema) (input : FormValues)
    : BMICalculation + list issue :=
  let age := parse_number "age" (s_age schema) (w_age input) in
  let height := parse_number "height" (s_height schema) (w_height input) in
  let weight := parse_number "weight" (s_weight schema) (w_weight input) in
  let heightUnit := parse_enum "heightUnit" (s_heightUnit schema) (w_heightUnit input) in
  let weightUnit := parse_enum "weightUnit" (s_weightUnit schema) (w_weightUnit input) in
  match age, height, weight, heightUnit, weightUnit with
  | inl a, inl h, inl w, inl hu, inl wu => inl (Build_BMICalculation a h w hu wu)
  | _, _, _, _, _ =>
      inr (issues_of age ++ issues_of height ++ issues_of weight
           ++ issues_of heightUnit ++ issues_of weightUnit)%list
  end.

(** [form.handleSubmit(onSubmit)] with [zodResolver(bmiCalculationSchema)]:
    the handler runs on the parsed values, and not at all when the schema
    rejects the form. *)
Definition handleSubmit (values : FormValues) : State -> State :=
  match safeParse bmiCalculationSchema values with
  | inl data => onSubmit data
  | inr _ => fun result => result
  end.

(** A measurement as the values of the form that holds it. *)
Definition values_of (data : BMICalculation) : FormValues :=
  Build_FormValues (Some (age data)) (Some (height data)) (Some (weight data))
    (heightUnit data) (weightUnit data).

(** The part of the effect's test that reads the age:
    [age && age >= 1 && age <= 120]. *)
Definition age_test (age : num) : bool :=
  truthy (Some age) && (age >=? lit 1 0) && (age <=? lit 120 0).

(** The schema accepts [x] as the age, the height, the weight. *)
Definition accepts_age (x : num) : Prop :=
  parse_number "age" (s_age bmiCalculationSchema) (Some x) = inl x.

Definition accepts_height (x : num) : Prop :=
  parse_number "height" (s_height bmiCalculationSchema) (Some x) = inl x.

Definition accepts_weight (x : num) : Prop :=
  parse_number "weight" (s_weight bmiCalculationSchema) (Some x) = inl x.

End Program.

Arguments BMIResult num : clear implicits.
Arguments BMICalculation num : clear implicits.
Arguments FormValues num : clear implicits.
Arguments State num : clear implicits.
Arguments check num : clear implicits.
Arguments Schema num : clear implicits.
Arguments Build_BMIResult {num} bmi category description color.
Arguments Build_BMICalculation {num} age height weight heightUnit weightUnit.
Arguments Build_FormValues {num} w_age w_height w_weight w_heightUnit w_weightUnit.
Arguments bmi {num} b.
Arguments category {num} b.
Arguments description {num} b.
Arguments color {num} b.
Arguments age {num} b.
Arguments height {num} b.
Arguments weight {num} b.
Arguments heightUnit {num} b.
Arguments weightUnit {num} b.

(** ** Laws of the comparisons

    What the classification relies on: [<] is the strict part of [<=], [<=]
    is a total preorder on the numbers that are not NaN, a comparison with
    NaN is false, and the three thresholds are in ascending order. *)
Class NumberLaws {num : Type} (N : Number num) : Prop := {
  ltb_spec : forall x y : num,
    ltb x y = true <-> leb x y = true /\ leb y x = false;
  leb_total : forall x y : num,
    isNaN x = false -> isNaN y = false -> leb x y = true \/ leb y x = true;
  leb_trans : forall x y z : num,
    leb x y = true -> leb y z = true -> leb x z = true;
  leb_number : forall x y : num,
    leb x y = true -> isNaN x = false /\ isNaN y = false;
  thresholds_ascending :
    ltb (lit 185 1) (lit 25 0) = true /\ ltb (lit 25 0) (lit 30 0) = true
}.

(** Where a binary64 number stands in the order of [SFcompare]: its class
    (the infinities outermost, the zeros in the middle), then exponent and
    mantissa, negated for a negative number. *)
Definition key (x : spec_float) : Z * Z * Z :=
  match x with
  | S754_nan => (0, 0, 0)
  | S754_zero _ => (0, 0, 0)
  | S754_infinity s => (if s then -2 else 2, 0, 0)
  | S754_finite s m e => if s then (-1, - e, - Z.pos m) else (1, e, Z.pos m)
  end%Z.

(** The lexicographic order on keys. *)
Definition key_le (k1 k2 : Z * Z * Z) : Prop :=
  let '(a1, b1, c1) := k1 in
  let '(a2, b2, c2) := k2 in
  (a1 < a2 \/ (a1 = a2 /\ (b1 < b2 \/ (b1 = b2 /\ c1 <= c2))))%Z.

(** ** The writers of the result

    The hook [result] is written in three places: by the submit handler
    ([form.handleSubmit(onSubmit)]), by the body of the live-calculation
    effect and by [resetForm].  React decides when each of them runs and on
    which values of the form, an effect possibly on values that the form no
    longer holds.  A call records one run of one of them. *)
Section Calls.

Context {num : Type} {N : Number num}.

Inductive call : Type :=
| CallSubmit (values : FormValues num)
| CallEffect (values : FormValues num)
| CallReset.

Definition perform (result : State num) (c : call) : State num :=
  match c with
  | CallSubmit values => handleSubmit values result
  | CallEffect values => useEffect values result
  | CallReset => resetForm result
  end.

(** A state whose category, description and color are those of the BMI it
    holds, at full precision. *)
Definition consistent (result : State num) : Prop :=
  match result with
  | None => True
  | Some r =>
      category r = CategoryInfo.category (getBMICategory (bmi r)) /\
      description r = CategoryInfo.description (getBMICategory (bmi r)) /\
      color r = CategoryInfo.color (getBMICategory (bmi r))
  end.

End Calls.

Arguments call num : clear implicits.

(** The four categories, from the lowest range to the highest. *)
Definition rank (category : string) : nat :=
  if String.eqb category "Underweight" then 0
  else if String.eqb category "Normal Weight" then 1
  else if String.eqb category "Overweight" then 2
  else 3.

(** A field fails with one issue, at its own path. *)
Definition one_issue {A : Type} (p : string) (r : A + list issue) : Prop :=
  match r with
  | inl _ => True
  | inr issues => exists c m, issues = [Build_issue p c m]
  end.

(** ** The value of a binary64 number

    The rational number that a finite binary64 number is: the mantissa
    times two to the exponent, with the sign.  (Zeros, and the infinities
    and NaN, which are no rationals, are given 0.) *)
Definition B2Q (x : binary64) : Q :=
  match x with
  | S754_finite s m e =>
      (if s then - inject_Z (Z.pos m) else inject_Z (Z.pos m)) * 2 ^ e
  | _ => 0
  end.

(** A positive normal binary64 number with its exponent between two
    bounds: a mantissa [m] of 53 bits and an exponent [e] from [lo] to
    [hi], for the number [m * 2^e], which lies from [2^(lo+52)] up to
    [2^(hi+53)]. *)
Definition normal_between (lo hi : Z) (x : binary64) : bool :=
  match x with
  | S754_finite false m e =>
      (Z.pos (digits2_pos m) =? 53)%Z && (lo <=? e)%Z && (e <=? hi)%Z
  | _ => false
  end.

(** ** The BMI computed exactly

    The formula of [onSubmit] over the rationals, at the values of the
    height and the weight entered: the exactly converted weight divided by
    the exact square of the exactly converted height.  It is the number
    that the stored BMI approximates. *)
Definition exact_bmi (data : BMICalculation binary64) : Q :=
  div (convertWeight (B2Q (weight data)) (weightUnit data))
      (mul (convertHeight (B2Q (height data)) (heightUnit data))
           (convertHeight (B2Q (height data)) (heightUnit data))).

(** [x'] is [x] up to a factor from [lo] to [hi]. *)
Definition between (lo hi x' x : Q) : Prop :=
  (x * lo <= x' /\ x' <= x * hi)%Q.

(** * Properties *)

(** ** The literals of the program *)

(** In binary64 the literals are the numbers an IEEE-754 implementation
    reads them as: [0.3048] is [0x1.381d7dbf487fdp-2], [0.453592] is
    [0x1.d07a6bd6e8af8p-2], [0.1] is [0x1.999999999999ap-4], and [100],
    [18.5], [25] and [30] are exact. *)
Example binary64_literals :
  (lit 3048 4 : binary64) = S754_finite false 5490788665690109 (-54) /\
  (lit 453592 6 : binary64) = S754_finite false 8171187048712952 (-54) /\
  (lit 1 1 : binary64) = S754_finite false 7205759403792794 (-56) /\
  (lit 100 0 : binary64) = S754_finite false (25 * 2 ^ 48) (-46) /\
  (lit 185 1 : binary64) = S754_finite false (37 * 2 ^ 47) (-48) /\
  (lit 25 0 : binary64) = S754_finite false (25 * 2 ^ 48) (-48) /\
  (lit 30 0 : binary64) = S754_finite false (15 * 2 ^ 49) (-48) /\
  (lit 0 0 : binary64) = S754_zero false.
Proof. repeat split; vm_compute; reflexivity. Qed.

(** In exact arithmetic they are the rationals they are written as. *)
Example Q_literals :
  (lit 3048 4 == 3048 # 10000)%Q /\
  (lit 453592 6 == 453592 # 1000000)%Q /\
  (lit 1 1 == 1 # 10)%Q /\
  (lit 100 0 == 100)%Q /\
  (lit 185 1 == 37 # 2)%Q /\
  (lit 25 0 == 25)%Q /\
  (lit 30 0 == 30)%Q /\
  (lit 0 0 == 0)%Q.
Proof. repeat split; vm_compute; reflexivity. Qed.

(** ** The comparisons of binary64 *)

Lemma SFcompare_antisym (x y : spec_float) :
  SFcompare x y = option_map CompOpp (SFcompare y x).
Proof.
  destruct x as [sx|sx| |sx mx ex], y as [sy|sy| |sy my ey]; simpl;
    try destruct sx; try destruct sy; simpl; try reflexivity;
    rewrite (Z.compare_antisym ey ex);
    change (Pos.compare_cont Eq mx my) with (Pos.compare mx my);
    change (Pos.compare_cont Eq my mx) with (Pos.compare my mx);
    rewrite (Pos.compare_antisym my mx);
    destruct (ey ?= ex)%Z; simpl; try reflexivity;
    destruct (my ?= mx)%positive; reflexivity.
Qed.

Lemma SFltb_SFleb (x y : spec_float) :
  SFltb x y = true <-> SFleb x y = true /\ SFleb y x = false.
Proof.
  unfold SFltb, SFleb. rewrite (SFcompare_antisym y x).
  destruct (SFcompare x y) as [[ | | ]|]; simpl; intuition congruence.
Qed.

(** [SFleb] is the order of the keys, on numbers that are not NaN. *)
Lemma SFleb_key (x y : spec_float) :
  SFleb x y = true <->
  binary64_isNaN x = false /\ binary64_isNaN y = false /\ key_le (key x) (key y).
Proof.
  unfold SFleb.
  destruct x as [sx|sx| |sx mx ex], y as [sy|sy| |sy my ey]; simpl;
    try destruct sx; try destruct sy; simpl;
    try (split; [intros; repeat split; (discriminate || lia) | reflexivity]);
    try (split; [discriminate | intros (? & ? & ?); (discriminate || lia)]);
    change (Pos.compare_cont Eq mx my) with (Pos.compare mx my);
    destruct (Z.compare_spec ex ey), (Pos.compare_spec mx my); simpl;
    (split; [intros; repeat split; (discriminate || lia)
            | intros (? & ? & ?); (reflexivity || lia)]).
Qed.

Lemma key_le_trans (k1 k2 k3 : Z * Z * Z) :
  key_le k1 k2 -> key_le k2 k3 -> key_le k1 k3.
Proof.
  destruct k1 as [[a1 b1] c1], k2 as [[a2 b2] c2], k3 as [[a3 b3] c3].
  unfold key_le. lia.
Qed.

Lemma key_le_total (k1 k2 : Z * Z * Z) : key_le k1 k2 \/ key_le k2 k1.
Proof.
  destruct k1 as [[a1 b1] c1], k2 as [[a2 b2] c2].
  unfold key_le. lia.
Qed.

#[export] Instance binary64_NumberLaws : NumberLaws binary64_Number.
Proof.
  split.
  - exact SFltb_SFleb.
  - intros x y Hx Hy. simpl in *.
    destruct (key_le_total (key x) (key y)); [left | right];
      apply SFleb_key; auto.
  - intros x y z Hxy Hyz. simpl in *.
    apply SFleb_key in Hxy, Hyz. apply SFleb_key.
    destruct Hxy as (? & ? & ?), Hyz as (? & ? & ?).
    eauto using key_le_trans.
  - intros x y H. simpl in *. apply SFleb_key in H. tauto.
  - split; reflexivity.
Qed.

#[export] Instance Q_NumberLaws : NumberLaws Q_Number.
Proof.
  split; simpl.
  - intros x y. rewrite negb_true_iff. split.
    + intros H. split; [| exact H].
      apply Qle_bool_iff. apply Qlt_le_weak. apply Qnot_le_lt.
      intros Hle. apply Qle_bool_iff in Hle. congruence.
    + tauto.
  - intros x y _ _.
    destruct (Qlt_le_dec x y) as [H | H].
    + left. apply Qle_bool_iff. apply Qlt_le_weak. exact H.
    + right. apply Qle_bool_iff. exact H.
  - intros x y z Hxy Hyz. apply Qle_bool_iff in Hxy, Hyz. apply Qle_bool_iff.
    eapply Qle_trans; eassumption.
  - auto.
  - split; reflexivity.
Qed.

(** ** Properties that hold in every arithmetic *)

Section Properties.

Context {num : Type} {N : Number num}.
Local Open Scope string_scope.
Local Open Scope num_scope.

Section Order.

Context {L : NumberLaws N}.

Lemma ltb_negb_leb (x y : num) :
  isNaN x = false -> isNaN y = false -> (x <? y) = negb (y <=? x).
Proof.
  intros Hx Hy. destruct (y <=? x) eqn:Hyx; simpl.
  - destruct (x <? y) eqn:Hlt; [| reflexivity].
    apply ltb_spec in Hlt. destruct Hlt; congruence.
  - apply ltb_spec. split; [| assumption].
    destruct (leb_total x y Hx Hy); congruence.
Qed.

Lemma leb_refl (x : num) : isNaN x = false -> x <= x.
Proof. intros Hx. destruct (leb_total x x Hx Hx); assumption. Qed.

Lemma ltb_leb_incl (x y : num) : x < y -> x <= y.
Proof. intros H. apply ltb_spec in H. tauto. Qed.

Lemma leb_not_ltb (x y : num) : x <= y -> (y <? x) = false.
Proof.
  intros H. destruct (y <? x) eqn:Hlt; [| reflexivity].
  apply ltb_spec in Hlt. destruct Hlt; congruence.
Qed.

Lemma ltb_not_leb (x y : num) : x < y -> (y <=? x) = false.
Proof. intros H. apply ltb_spec in H. tauto. Qed.

Lemma not_ltb_leb (x y : num) :
  isNaN x = false -> isNaN y = false -> (x <? y) = false -> y <= x.
Proof.
  intros Hx Hy H. rewrite (ltb_negb_leb _ _ Hx Hy) in H.
  now apply negb_false_iff in H.
Qed.

(** A number below [lo] is not above a bound that is above [lo]. *)
Lemma below_excludes (lo hi b : num) :
  lo <= hi -> (lo <=? b) = false -> (hi <=? b) = false.
Proof.
  intros Hle Hb. destruct (hi <=? b) eqn:E; [| reflexivity].
  rewrite (leb_trans _ _ _ Hle E) in Hb. discriminate.
Qed.

Lemma thresholds_number :
  isNaN (lit 185 1) = false /\ isNaN (lit 25 0) = false /\
  isNaN (lit 30 0) = false.
Proof.
  destruct thresholds_ascending as [H1 H2].
  apply ltb_leb_incl, leb_number in H1.
  apply ltb_leb_incl, leb_number in H2.
  tauto.
Qed.

(** Once the tests of [getBMICategory] are decided, each of the four
    equivalences is read off the category returned. *)
Ltac read_off_category :=
  repeat split; intros; try discriminate; try tauto;
  match goal with
  | H : _ /\ _ |- _ => destruct H; discriminate
  end.

(** The categories of [getBMICategory] as ranges of its argument. *)
Lemma getBMICategory_partition (b : num) :
  isNaN b = false ->
  (CategoryInfo.category (getBMICategory b) = "Underweight" <->
     b < lit 185 1) /\
  (CategoryInfo.category (getBMICategory b) = "Normal Weight" <->
     b >= lit 185 1 /\ b < lit 25 0) /\
  (CategoryInfo.category (getBMICategory b) = "Overweight" <->
     b >= lit 25 0 /\ b < lit 30 0) /\
  (CategoryInfo.category (getBMICategory b) = "Obese" <-> b >= lit 30 0).
Proof.
  intros Hb.
  destruct thresholds_ascending as [H12 H23].
  destruct thresholds_number as (N1 & N2 & N3).
  apply ltb_leb_incl in H12, H23.
  unfold getBMICategory.
  destruct (b <? lit 185 1) eqn:E1.
  - pose proof (ltb_not_leb _ _ E1) as F1.
    pose proof (below_excludes _ _ _ H12 F1) as F2.
    pose proof (below_excludes _ _ _ H23 F2) as F3.
    simpl. rewrite F1, F2, F3. read_off_category.
  - rewrite (not_ltb_leb _ _ Hb N1 E1). simpl.
    destruct (b <? lit 25 0) eqn:E2.
    + pose proof (ltb_not_leb _ _ E2) as F2.
      pose proof (below_excludes _ _ _ H23 F2) as F3.
      simpl. rewrite F2, F3. read_off_category.
    + rewrite (not_ltb_leb _ _ Hb N2 E2). simpl.
      destruct (b <? lit 30 0) eqn:E3.
      * simpl. rewrite (ltb_not_leb _ _ E3). read_off_category.
      * simpl. rewrite (not_ltb_leb _ _ Hb N3 E3). read_off_category.
Qed.

(** C1: for every BMI value [b] (a number, not NaN), [getBMICategory]
    returns Underweight iff [b < 18.5], Normal Weight iff
    [18.5 <= b < 25], Overweight iff [25 <= b < 30] and Obese iff
    [b >= 30]; each of the boundary values 18.5, 25 and 30 falls in the
    higher category. *)
Theorem getBMICategory_ranges :
  (forall b : num, isNaN b = false ->
     (CategoryInfo.category (getBMICategory b) = "Underweight" <->
        b < lit 185 1) /\
     (CategoryInfo.category (getBMICategory b) = "Normal Weight" <->
        b >= lit 185 1 /\ b < lit 25 0) /\
     (CategoryInfo.category (getBMICategory b) = "Overweight" <->
        b >= lit 25 0 /\ b < lit 30 0) /\
     (CategoryInfo.category (getBMICategory b) = "Obese" <->
        b >= lit 30 0)) /\
  CategoryInfo.category (getBMICategory (lit 185 1)) = "Normal Weight" /\
  CategoryInfo.category (getBMICategory (lit 25 0)) = "Overweight" /\
  CategoryInfo.category (getBMICategory (lit 30 0)) = "Obese".
Proof.
  destruct thresholds_ascending as [H12 H23].
  destruct thresholds_number as (N1 & N2 & N3).
  split; [exact getBMICategory_partition |].
  split; [| split].
  - apply (getBMICategory_partition _ N1).
    split; [apply leb_refl; assumption | assumption].
  - apply (getBMICategory_partition _ N2).
    split; [apply leb_refl; assumption | assumption].
  - apply (getBMICategory_partition _ N3). apply leb_refl; assumption.
Qed.

(** A number schema with an inclusive lower and upper bound accepts the
    numbers between the bounds. *)
Lemma parse_number_min_max (path m1 m2 : string) (lo hi x : num) :
  isNaN lo = false -> isNaN hi = false ->
  parse_number path [Min lo m1; Max hi m2] (Some x) = inl x <->
  x >= lo /\ x <= hi.
Proof.
  intros Hlo Hhi. unfold parse_number. split.
  - destruct (isNaN x) eqn:Hx; [discriminate |]. simpl.
    destruct (x <? lo) eqn:E1; [discriminate |].
    destruct (hi <? x) eqn:E2; [discriminate |]. intros _.
    split; apply not_ltb_leb; assumption.
  - intros [H1 H2].
    destruct (leb_number _ _ H1) as [_ Hx]. rewrite Hx. simpl.
    rewrite (leb_not_ltb _ _ H1), (leb_not_ltb _ _ H2). reflexivity.
Qed.

(** A number schema with an inclusive lower bound accepts the numbers from
    the bound on. *)
Lemma parse_number_min (path m1 : string) (lo x : num) :
  isNaN lo = false ->
  parse_number path [Min lo m1] (Some x) = inl x <-> x >= lo.
Proof.
  intros Hlo. unfold parse_number. split.
  - destruct (isNaN x) eqn:Hx; [discriminate |]. simpl.
    destruct (x <? lo) eqn:E1; [discriminate |]. intros _.
    apply not_ltb_leb; assumption.
  - intros H1.
    destruct (leb_number _ _ H1) as [_ Hx]. rewrite Hx. simpl.
    rewrite (leb_not_ltb _ _ H1). reflexivity.
Qed.

End Order.

(** What [onSubmit] leaves in the state, whatever was there before. *)
Lemma onSubmit_unfold (data : BMICalculation num) (result : State num) :
  onSubmit data result =
  let bmi := convertWeight (weight data) (weightUnit data)
             / (convertHeight (height data) (heightUnit data)
                * convertHeight (height data) (heightUnit data)) in
  Some (Build_BMIResult bmi
          (CategoryInfo.category (getBMICategory bmi))
          (CategoryInfo.description (getBMICategory bmi))
          (CategoryInfo.color (getBMICategory bmi))).
Proof. reflexivity. Qed.

(** C2: for every measurement with [height > 0] and [weight > 0], the BMI
    that [onSubmit] stores is the converted weight divided by the square of
    the converted height, and the category, description and color stored
    with it are those of [getBMICategory] at that same value: nothing is
    rounded before the classification. *)
Theorem onSubmit_formula (data : BMICalculation num) (result : State num) :
  height data > lit 0 0 -> weight data > lit 0 0 ->
  exists r : BMIResult num,
    onSubmit data result = Some r /\
    bmi r = convertWeight (weight data) (weightUnit data)
            / (convertHeight (height data) (heightUnit data)
               * convertHeight (height data) (heightUnit data)) /\
    category r = CategoryInfo.category (getBMICategory (bmi r)) /\
    description r = CategoryInfo.description (getBMICategory (bmi r)) /\
    color r = CategoryInfo.color (getBMICategory (bmi r)).
Proof.
  intros _ _. rewrite onSubmit_unfold. cbv zeta.
  eexists. split; [reflexivity |]. simpl. repeat split.
Qed.

(** C3: for every positive [v], [convertHeight] returns [v / 100] for
    centimeters and [v * 0.3048] for feet, and [convertWeight] returns
    [v * 0.453592] for pounds and [v] itself for kilograms. *)
Theorem conversion_table (v : num) :
  v > lit 0 0 ->
  convertHeight v "cm" = v / lit 100 0 /\
  convertHeight v "ft" = v * lit 3048 4 /\
  convertWeight v "lbs" = v * lit 453592 6 /\
  convertWeight v "kg" = v.
Proof. intros _. repeat split. Qed.

(** The effect on the values of a measurement: its test, in which the age
    takes part, and then the computation of [onSubmit], in which it does
    not. *)
Lemma useEffect_values_of (data : BMICalculation num) (result : State num) :
  useEffect (values_of data) result =
  if age_test (age data)
     && (truthy (Some (height data)) && truthy (Some (weight data))
         && (height data >? lit 0 0) && (weight data >? lit 0 0))
  then onSubmit data result
  else result.
Proof.
  unfold useEffect, values_of, age_test. cbn [w_age w_height w_weight].
  destruct (truthy (Some (age data))), (truthy (Some (height data))),
    (truthy (Some (weight data))), (age data >=? lit 1 0),
    (age data <=? lit 120 0), (height data >? lit 0 0),
    (weight data >? lit 0 0); reflexivity.
Qed.

(** C6: two measurements that agree on height, height unit, weight and
    weight unit give the same result whatever their ages: [onSubmit] stores
    the same BMI, category, description and color for both, and so does the
    live-calculation effect as soon as both ages pass its test (as any two
    ages from 1 to 120 do). *)
Theorem age_does_not_influence
    (d1 d2 : BMICalculation num) (result : State num) :
  height d1 = height d2 -> heightUnit d1 = heightUnit d2 ->
  weight d1 = weight d2 -> weightUnit d1 = weightUnit d2 ->
  onSubmit d1 result = onSubmit d2 result /\
  (age_test (age d1) = age_test (age d2) ->
   useEffect (values_of d1) result = useEffect (values_of d2) result).
Proof.
  intros Hh Hhu Hw Hwu.
  assert (Hs : onSubmit d1 result = onSubmit d2 result).
  { rewrite !onSubmit_unfold. rewrite Hh, Hhu, Hw, Hwu. reflexivity. }
  split; [exact Hs |].
  intros Ha. rewrite !useEffect_values_of. rewrite Ha, Hh, Hw, Hs.
  reflexivity.
Qed.

(** C9: the computation is deterministic and stateless.  [onSubmit] on one
    measurement leaves the same result (BMI, category, description and
    color) whatever the state it starts from, and running it a second time
    changes nothing; it always produces a result. *)
Theorem onSubmit_stateless (data : BMICalculation num) (r1 r2 : State num) :
  onSubmit data r1 = onSubmit data r2 /\
  onSubmit data (onSubmit data r1) = onSubmit data r1 /\
  exists r : BMIResult num, onSubmit data r1 = Some r.
Proof.
  repeat split. rewrite onSubmit_unfold. cbv zeta. eexists. reflexivity.
Qed.

(** C10: a unit string outside the enumeration raises no error: every unit
    other than ["ft"] is read as centimeters by [convertHeight], which
    divides by 100, and every unit other than ["lbs"] is read as kilograms
    by [convertWeight], which returns the value unchanged. *)
Theorem unknown_unit_is_metric (v : num) (unit : string) :
  (unit <> "ft" -> convertHeight v unit = v / lit 100 0) /\
  (unit <> "lbs" -> convertWeight v unit = v).
Proof.
  unfold convertHeight, convertWeight. split; intros H.
  - destruct (String.eqb_spec unit "ft"); [contradiction | reflexivity].
  - destruct (String.eqb_spec unit "lbs"); [contradiction | reflexivity].
Qed.

End Properties.

(** ** Witnesses of the general properties, in binary64 *)

Section Witnesses.

Local Open Scope string_scope.
Local Open Scope num_scope.

Lemma getBMICategory_ranges_witness :
  let b : binary64 := lit 22 0 in
  isNaN b = false /\
  (CategoryInfo.category (getBMICategory b) = "Underweight" <->
     b < lit 185 1) /\
  (CategoryInfo.category (getBMICategory b) = "Normal Weight" <->
     b >= lit 185 1 /\ b < lit 25 0) /\
  (CategoryInfo.category (getBMICategory b) = "Overweight" <->
     b >= lit 25 0 /\ b < lit 30 0) /\
  (CategoryInfo.category (getBMICategory b) = "Obese" <-> b >= lit 30 0).
Proof.
  intros b. split; [reflexivity |].
  apply (proj1 (@getBMICategory_ranges binary64 _ _) b). reflexivity.
Defined.

Lemma onSubmit_formula_witness :
  let data : BMICalculation binary64 :=
    Build_BMICalculation (lit 30 0) (lit 180 0) (lit 75 0) "cm" "kg" in
  height data > lit 0 0 /\ weight data > lit 0 0 /\
  exists r : BMIResult binary64,
    onSubmit data None = Some r /\
    bmi r = convertWeight (weight data) (weightUnit data)
            / (convertHeight (height data) (heightUnit data)
               * convertHeight (height data) (heightUnit data)) /\
    category r = CategoryInfo.category (getBMICategory (bmi r)) /\
    description r = CategoryInfo.description (getBMICategory (bmi r)) /\
    color r = CategoryInfo.color (getBMICategory (bmi r)).
Proof.
  intros data. split; [reflexivity |]. split; [reflexivity |].
  apply (onSubmit_formula data None); reflexivity.
Defined.

Lemma conversion_table_witness :
  let v : binary64 := lit 170 0 in
  v > lit 0 0 /\
  convertHeight v "cm" = v / lit 100 0 /\
  convertHeight v "ft" = v * lit 3048 4 /\
  convertWeight v "lbs" = v * lit 453592 6 /\
  convertWeight v "kg" = v.
Proof.
  intros v. split; [reflexivity |]. apply (conversion_table v). reflexivity.
Defined.

Lemma age_does_not_influence_witness :
  let d1 : BMICalculation binary64 :=
    Build_BMICalculation (lit 30 0) (lit 180 0) (lit 75 0) "cm" "kg" in
  let d2 : BMICalculation binary64 :=
    Build_BMICalculation (lit 45 0) (lit 180 0) (lit 75 0) "cm" "kg" in
  age d1 <> age d2 /\
  age_test (age d1) = age_test (age d2) /\
  onSubmit d1 None = onSubmit d2 None /\
  useEffect (values_of d1) None = useEffect (values_of d2) None.
Proof.
  intros d1 d2.
  destruct (age_does_not_influence d1 d2 None eq_refl eq_refl eq_refl eq_refl)
    as [Hs He].
  split; [discriminate |]. split; [reflexivity |].
  split; [exact Hs | apply He; reflexivity].
Defined.

Lemma unknown_unit_is_metric_witness :
  let v : binary64 := lit 170 0 in
  "in" <> "ft" /\ "in" <> "lbs" /\
  convertHeight v "in" = v / lit 100 0 /\ convertWeight v "in" = v.
Proof.
  intros v.
  assert (H1 : "in" <> "ft") by discriminate.
  assert (H2 : "in" <> "lbs") by discriminate.
  destruct (unknown_unit_is_metric v "in") as [Hh Hw].
  split; [exact H1 |]. split; [exact H2 |].
  split; [exact (Hh H1) | exact (Hw H2)].
Defined.

End Witnesses.

(** ** The boundary scenario *)

Section Scenarios.

Local Open Scope string_scope.
Local Open Scope num_scope.

(** C7: for height 100 centimeters and weight 18.5 kilograms the computed
    BMI is exactly 18.5 and the category is Normal Weight, not Underweight:
    bit for bit in binary64, and in exact arithmetic. *)
Theorem boundary_scenario :
  (forall (a : binary64) (result : State binary64),
     exists r : BMIResult binary64,
       onSubmit (Build_BMICalculation a (lit 100 0) (lit 185 1) "cm" "kg")
         result = Some r /\
       bmi r = lit 185 1 /\
       category r = "Normal Weight" /\ category r <> "Underweight") /\
  (forall (a : Q) (result : State Q),
     exists r : BMIResult Q,
       onSubmit (Build_BMICalculation a (lit 100 0) (lit 185 1) "cm" "kg")
         result = Some r /\
       (bmi r == lit 185 1)%Q /\
       category r = "Normal Weight" /\ category r <> "Underweight").
Proof.
  split; intros a result; rewrite onSubmit_unfold;
    (eexists; split; [reflexivity |]); vm_compute;
    (split; [reflexivity |]); (split; [reflexivity | discriminate]).
Qed.

(** The scenarios of the specification, in binary64. *)
Example scenarios :
  (forall result, option_map category
       (onSubmit (Build_BMICalculation (lit 30 0 : binary64) (lit 180 0)
                    (lit 75 0) "cm" "kg") result) = Some "Normal Weight") /\
  (forall result, option_map category
       (onSubmit (Build_BMICalculation (lit 25 0 : binary64) (lit 59 1)
                    (lit 160 0) "ft" "lbs") result) = Some "Normal Weight") /\
  (forall result, option_map category
       (onSubmit (Build_BMICalculation (lit 30 0 : binary64) (lit 150 0)
                    (lit 40 0) "cm" "kg") result) = Some "Underweight") /\
  (forall result, option_map category
       (onSubmit (Build_BMICalculation (lit 30 0 : binary64) (lit 170 0)
                    (lit 90 0) "cm" "kg") result) = Some "Obese").
Proof. repeat split; intros result; vm_compute; reflexivity. Qed.

(** NaN is no BMI value: every comparison with it is false, and
    [getBMICategory] falls through to its last branch. *)
Example getBMICategory_NaN :
  CategoryInfo.category (getBMICategory (S754_nan : binary64)) = "Obese" /\
  ((S754_nan : binary64) >=? lit 30 0) = false.
Proof. split; vm_compute; reflexivity. Qed.

End Scenarios.

(** ** Round trips of the conversions *)

Section RoundTrip.

Local Open Scope string_scope.


(** In binary64 each operation rounds, and the round trip can land on the
    neighbour of the value it started from: 1.7 through centimeters and
    through feet comes back one unit in the last place away, and so does 4.5
    through pounds. *)
Example binary64_round_trip_inexact :
  (lit 17 1 : binary64) = S754_finite false 7656119366529843 (-52) /\
  mul (convertHeight (lit 17 1 : binary64) "cm") (lit 100 0)
    = S754_finite false 7656119366529844 (-52) /\
  div (convertHeight (lit 17 1 : binary64) "ft") (lit 3048 4)
    = S754_finite false 7656119366529844 (-52) /\
  (lit 45 1 : binary64) = S754_finite false 5066549580791808 (-50) /\
  div (convertWeight (lit 45 1 : binary64) "lbs") (lit 453592 6)
    = S754_finite false 5066549580791809 (-50).
Proof. repeat split; vm_compute; reflexivity. Qed.

End RoundTrip.

(** ** The validation schema *)

Section Validation.

Local Open Scope string_scope.
Local Open Scope num_scope.

(** The schema accepts a height, and a weight, from 0.1 on: the bound of
    [.min(0.1, ...)] is inclusive, and it is 0.1, not 0. *)
Lemma accepts_height_iff (h : binary64) : accepts_height h <-> h >= lit 1 1.
Proof.
  unfold accepts_height. cbn [s_height bmiCalculationSchema].
  apply parse_number_min. vm_compute; reflexivity.
Qed.

Lemma accepts_weight_iff (w : binary64) : accepts_weight w <-> w >= lit 1 1.
Proof.
  unfold accepts_weight. cbn [s_weight bmiCalculationSchema].
  apply parse_number_min. vm_compute; reflexivity.
Qed.

(** C4, at the failing input: the height 0.05 is strictly positive, and the
    schema rejects it with the message that the height must be greater than
    0, so that submitting the form computes nothing; the live-calculation
    effect, whose test is [height > 0], computes a result for the same
    values.  The same holds of the weight 0.05. *)
Theorem schema_rejects_small_positive :
  let values : FormValues binary64 :=
    Build_FormValues (Some (lit 30 0)) (Some (lit 5 2)) (Some (lit 70 0))
      "cm" "kg" in
  let values' : FormValues binary64 :=
    Build_FormValues (Some (lit 30 0)) (Some (lit 170 0)) (Some (lit 5 2))
      "cm" "kg" in
  (lit 5 2 : binary64) > lit 0 0 /\
  safeParse bmiCalculationSchema values =
    inr [Build_issue "height" too_small (Some "Height must be greater than 0")] /\
  safeParse bmiCalculationSchema values' =
    inr [Build_issue "weight" too_small (Some "Weight must be greater than 0")] /\
  ~ accepts_height (lit 5 2 : binary64) /\
  ~ accepts_weight (lit 5 2 : binary64) /\
  (forall result, handleSubmit values result = result) /\
  (forall result, useEffect values result <> None).
Proof.
  intros values values'.
  split; [vm_compute; reflexivity |].
  split; [vm_compute; reflexivity |].
  split; [vm_compute; reflexivity |].
  split; [vm_compute; discriminate |].
  split; [vm_compute; discriminate |].
  split; intros result.
  - reflexivity.
  - vm_compute. discriminate.
Qed.

(** C5, refuted as stated: 1.5 is no integer, and the schema accepts it as
    an age. *)
Lemma age_schema_accepts_non_integer :
  accepts_age (lit 15 1 : binary64) /\
  isInteger (lit 15 1 : binary64) = false /\
  ~ (accepts_age (lit 15 1 : binary64) <->
     isInteger (lit 15 1 : binary64) = true /\
     (lit 15 1 : binary64) >= lit 1 0 /\ (lit 15 1 : binary64) <= lit 120 0).
Proof.
  assert (Ha : accepts_age (lit 15 1 : binary64)) by (vm_compute; reflexivity).
  assert (Hi : isInteger (lit 15 1 : binary64) = false)
    by (vm_compute; reflexivity).
  split; [exact Ha |]. split; [exact Hi |].
  intros [H _]. destruct (H Ha) as [Hint _]. congruence.
Qed.

(** C5, amended: the schema accepts an age exactly when it is a number from
    1 to 120, both included, integer or not.  Age 120 is accepted, ages 0
    and 121 are rejected, and the non-integer age 1.5 is accepted. *)
Theorem accepts_age_iff_in_range :
  (forall a : binary64, accepts_age a <-> a >= lit 1 0 /\ a <= lit 120 0) /\
  accepts_age (lit 120 0 : binary64) /\
  ~ accepts_age (lit 0 0 : binary64) /\
  ~ accepts_age (lit 121 0 : binary64) /\
  accepts_age (lit 15 1 : binary64) /\
  isInteger (lit 15 1 : binary64) = false.
Proof.
  split.
  - intros a. unfold accepts_age. cbn [s_age bmiCalculationSchema].
    apply parse_number_min_max; vm_compute; reflexivity.
  - split; [vm_compute; reflexivity |].
    split; [vm_compute; discriminate |].
    split; [vm_compute; discriminate |].
    split; vm_compute; reflexivity.
Qed.

End Validation.

(** * Further properties of the program *)

(** ** The classification *)

Section Classification.

Context {num : Type} {N : Number num}.
Local Open Scope string_scope.
Local Open Scope num_scope.

(** X1: whatever its argument, NaN included, [getBMICategory] returns one of
    four fixed records, and any one of the category, the description and
    the color determines the other two. *)
Theorem getBMICategory_one_to_one (b1 b2 : num) :
  (CategoryInfo.category (getBMICategory b1) = "Underweight" \/
   CategoryInfo.category (getBMICategory b1) = "Normal Weight" \/
   CategoryInfo.category (getBMICategory b1) = "Overweight" \/
   CategoryInfo.category (getBMICategory b1) = "Obese") /\
  (CategoryInfo.category (getBMICategory b1)
     = CategoryInfo.category (getBMICategory b2) <->
   getBMICategory b1 = getBMICategory b2) /\
  (CategoryInfo.description (getBMICategory b1)
     = CategoryInfo.description (getBMICategory b2) <->
   getBMICategory b1 = getBMICategory b2) /\
  (CategoryInfo.color (getBMICategory b1)
     = CategoryInfo.color (getBMICategory b2) <->
   getBMICategory b1 = getBMICategory b2).
Proof.
  unfold getBMICategory.
  destruct (b1 <? lit 185 1), ((b1 >=? lit 185 1) && (b1 <? lit 25 0)),
    ((b1 >=? lit 25 0) && (b1 <? lit 30 0));
  destruct (b2 <? lit 185 1), ((b2 >=? lit 185 1) && (b2 <? lit 25 0)),
    ((b2 >=? lit 25 0) && (b2 <? lit 30 0));
  cbn [CategoryInfo.category CategoryInfo.description CategoryInfo.color];
  (split; [tauto |]);
  repeat split; intros H; try reflexivity; discriminate H.
Qed.

Context {L : NumberLaws N}.

(** A number below a bound has every smaller number below that bound. *)
Lemma ltb_mono (x y c : num) :
  isNaN x = false -> isNaN c = false ->
  x <= y -> y < c -> x < c.
Proof.
  intros Hx Hc Hxy Hyc.
  rewrite (ltb_negb_leb _ _ Hx Hc). apply negb_true_iff.
  destruct (c <=? x) eqn:E; [| reflexivity].
  apply ltb_spec in Hyc. destruct Hyc as [_ Hyc].
  rewrite (leb_trans _ _ _ E Hxy) in Hyc. discriminate.
Qed.

(** The rank of the category of a number, by its position among the three
    thresholds. *)
Lemma getBMICategory_rank (b : num) :
  isNaN b = false ->
  rank (CategoryInfo.category (getBMICategory b)) =
  if b <? lit 185 1 then 0%nat
  else if b <? lit 25 0 then 1%nat
  else if b <? lit 30 0 then 2%nat
  else 3%nat.
Proof.
  intros Hb. destruct thresholds_number as (N1 & N2 & N3).
  unfold getBMICategory.
  destruct (b <? lit 185 1) eqn:E1; [reflexivity |].
  rewrite (not_ltb_leb _ _ Hb N1 E1). cbn [andb].
  destruct (b <? lit 25 0) eqn:E2; [reflexivity |].
  rewrite (not_ltb_leb _ _ Hb N2 E2). cbn [andb].
  destruct (b <? lit 30 0) eqn:E3; reflexivity.
Qed.

(** Of two numbers, the larger one is never put in a lower category. *)
Lemma rank_monotone (b1 b2 : num) :
  isNaN b1 = false -> isNaN b2 = false -> b1 <= b2 ->
  (rank (CategoryInfo.category (getBMICategory b1))
   <= rank (CategoryInfo.category (getBMICategory b2)))%nat.
Proof.
  intros H1 H2 Hle. destruct thresholds_number as (N1 & N2 & N3).
  destruct thresholds_ascending as [T12 T23].
  rewrite !getBMICategory_rank by assumption.
  pose proof (ltb_mono b1 b2 (lit 185 1) H1 N1 Hle) as M1.
  pose proof (ltb_mono b1 b2 (lit 25 0) H1 N2 Hle) as M2.
  pose proof (ltb_mono b1 b2 (lit 30 0) H1 N3 Hle) as M3.
  destruct (b2 <? lit 185 1); [rewrite (M1 eq_refl); lia |].
  destruct (b2 <? lit 25 0).
  { rewrite (M2 eq_refl). destruct (b1 <? lit 185 1); lia. }
  destruct (b2 <? lit 30 0).
  { rewrite (M3 eq_refl). destruct (b1 <? lit 185 1), (b1 <? lit 25 0); lia. }
  destruct (b1 <? lit 185 1), (b1 <? lit 25 0), (b1 <? lit 30 0); lia.
Qed.

(** X2: the classification is monotone: of two BMI values, the larger one is
    never put in a lower category; so a value in a lower category than
    another is the smaller of the two. *)
Theorem getBMICategory_monotone (b1 b2 : num) :
  isNaN b1 = false -> isNaN b2 = false ->
  (b1 <= b2 ->
   (rank (CategoryInfo.category (getBMICategory b1))
    <= rank (CategoryInfo.category (getBMICategory b2)))%nat) /\
  ((rank (CategoryInfo.category (getBMICategory b1))
    < rank (CategoryInfo.category (getBMICategory b2)))%nat ->
   b1 < b2).
Proof.
  intros H1 H2. split.
  - apply rank_monotone; assumption.
  - intros Hlt. rewrite (ltb_negb_leb _ _ H1 H2). apply negb_true_iff.
    destruct (b2 <=? b1) eqn:E; [| reflexivity].
    pose proof (rank_monotone b2 b1 H2 H1 E). lia.
Qed.

End Classification.

Lemma getBMICategory_monotone_witness :
  let b1 : binary64 := lit 24 0 in
  let b2 : binary64 := lit 27 0 in
  isNaN b1 = false /\ isNaN b2 = false /\ (b1 <= b2)%num /\
  (rank (CategoryInfo.category (getBMICategory b1))
   <= rank (CategoryInfo.category (getBMICategory b2)))%nat /\
  (b1 < b2)%num.
Proof.
  intros b1 b2.
  assert (H1 : isNaN b1 = false) by reflexivity.
  assert (H2 : isNaN b2 = false) by reflexivity.
  destruct (@getBMICategory_monotone binary64 _ _ b1 b2 H1 H2) as [Hle Hlt].
  split; [exact H1 |]. split; [exact H2 |]. split; [reflexivity |].
  split; [apply Hle; reflexivity | apply Hlt; vm_compute; lia].
Defined.

(** ** The schema and the effect, in binary64 *)

Section SchemaAndEffect.

Local Open Scope string_scope.
Local Open Scope num_scope.

(** How a number schema and an enumeration succeed. *)
Lemma parse_number_inl {num : Type} {N : Number num}
    (p : string) (checks : list (check num)) (input : option num) (x : num) :
  parse_number p checks input = inl x ->
  input = Some x /\ parse_number p checks (Some x) = inl x.
Proof.
  unfold parse_number. destruct input as [y |]; [| discriminate].
  destruct (isNaN y) eqn:En; [discriminate |].
  destruct (flat_map (run_check p y) checks) eqn:Ef; [| discriminate].
  intros H. injection H as <-. rewrite En, Ef. split; reflexivity.
Qed.

Lemma parse_enum_inl (p : string) (options : list string) (input u : string) :
  parse_enum p options input = inl u ->
  input = u /\ existsb (String.eqb u) options = true.
Proof.
  unfold parse_enum. destruct (existsb (String.eqb input) options) eqn:E;
    [| discriminate].
  intros H. injection H as <-. split; [reflexivity | exact E].
Qed.

(** The object schema succeeds exactly when its five fields do, and then
    gives back the values of the form. *)
Lemma safeParse_inl {num : Type} {N : Number num}
    (s : Schema num) (values : FormValues num) (data : BMICalculation num) :
  safeParse s values = inl data <->
  values = values_of data /\
  parse_number "age" (s_age s) (Some (age data)) = inl (age data) /\
  parse_number "height" (s_height s) (Some (height data)) = inl (height data) /\
  parse_number "weight" (s_weight s) (Some (weight data)) = inl (weight data) /\
  existsb (String.eqb (heightUnit data)) (s_heightUnit s) = true /\
  existsb (String.eqb (weightUnit data)) (s_weightUnit s) = true.
Proof.
  unfold safeParse. split.
  - destruct (parse_number "age" (s_age s) (w_age values)) as [a |] eqn:Ea;
      [| discriminate].
    destruct (parse_number "height" (s_height s) (w_height values))
      as [h |] eqn:Eh; [| discriminate].
    destruct (parse_number "weight" (s_weight s) (w_weight values))
      as [w |] eqn:Ew; [| discriminate].
    destruct (parse_enum "heightUnit" (s_heightUnit s) (w_heightUnit values))
      as [hu |] eqn:Ehu; [| discriminate].
    destruct (parse_enum "weightUnit" (s_weightUnit s) (w_weightUnit values))
      as [wu |] eqn:Ewu; [| discriminate].
    intros H. injection H as <-.
    apply parse_number_inl in Ea, Eh, Ew. apply parse_enum_inl in Ehu, Ewu.
    destruct Ea as [Ea1 Ea2], Eh as [Eh1 Eh2], Ew as [Ew1 Ew2],
      Ehu as [Ehu1 Ehu2], Ewu as [Ewu1 Ewu2].
    cbn [age height weight heightUnit weightUnit].
    repeat split; try assumption.
    destruct values as [va vh vw vhu vwu]. unfold values_of. simpl in *.
    congruence.
  - intros (-> & Ha & Hh & Hw & Hhu & Hwu).
    unfold values_of. cbn [w_age w_height w_weight w_heightUnit w_weightUnit].
    rewrite Ha, Hh, Hw. unfold parse_enum. rewrite Hhu, Hwu.
    destruct data; reflexivity.
Qed.

Lemma existsb_two (u a b : string) :
  existsb (String.eqb u) [a; b] = true <-> u = a \/ u = b.
Proof.
  simpl. rewrite orb_false_r, orb_true_iff, !String.eqb_eq. tauto.
Qed.

(** X3: what [bmiCalculationSchema] accepts: the values of a measurement whose
    age is a number from 1 to 120, whose height and weight are numbers from
    0.1 on, and whose units are among ["cm"], ["ft"] and ["kg"], ["lbs"];
    what it returns is then that measurement, unchanged. *)
Theorem safeParse_accepts_iff
    (values : FormValues binary64) (data : BMICalculation binary64) :
  safeParse bmiCalculationSchema values = inl data <->
  values = values_of data /\
  age data >= lit 1 0 /\ age data <= lit 120 0 /\
  height data >= lit 1 1 /\ weight data >= lit 1 1 /\
  (heightUnit data = "cm" \/ heightUnit data = "ft") /\
  (weightUnit data = "kg" \/ weightUnit data = "lbs").
Proof.
  rewrite safeParse_inl.
  cbn [bmiCalculationSchema s_age s_height s_weight s_heightUnit s_weightUnit].
  rewrite (parse_number_min_max (N := binary64_Number))
    by (vm_compute; reflexivity).
  rewrite !(parse_number_min (N := binary64_Number))
    by (vm_compute; reflexivity).
  rewrite !existsb_two. tauto.
Qed.

(** In binary64, two numbers that compare equal compare [<=] both ways. *)
Lemma SFeqb_SFleb (x y : binary64) : SFeqb x y = true -> x <= y.
Proof.
  simpl. unfold SFeqb, SFleb.
  destruct (SFcompare x y) as [[ | | ] |]; (reflexivity || discriminate).
Qed.

(** A number at or above a positive bound is positive, and is truthy. *)
Lemma above_positive (c x : binary64) :
  c > lit 0 0 -> x >= c -> x > lit 0 0 /\ truthy (Some x) = true.
Proof.
  intros Hc Hx.
  destruct (leb_number _ _ Hx) as [_ Hn].
  assert (H0 : (x <=? lit 0 0) = false).
  { destruct (x <=? lit 0 0) eqn:E; [| reflexivity].
    apply ltb_spec in Hc. destruct Hc as [_ Hc].
    rewrite (leb_trans _ _ _ Hx E) in Hc. discriminate. }
  split.
  - rewrite ltb_negb_leb by (assumption || reflexivity).
    rewrite H0. reflexivity.
  - unfold truthy. rewrite Hn. cbn [orb].
    destruct (eqb x (lit 0 0)) eqn:E; [| reflexivity].
    apply SFeqb_SFleb in E. rewrite E in H0. discriminate.
Qed.

Lemma one_and_tenth_positive :
  (lit 1 0 : binary64) > lit 0 0 /\ (lit 1 1 : binary64) > lit 0 0.
Proof. split; vm_compute; reflexivity. Qed.

(** A positive number is truthy: the tests [height && ...] and
    [height > 0] of the effect say the same thing twice. *)
Lemma positive_truthy (x : binary64) :
  x > lit 0 0 -> truthy (Some x) = true.
Proof.
  intros Hx. apply ltb_spec in Hx. destruct Hx as [Hle Hnle].
  destruct (leb_number _ _ Hle) as [_ Hn].
  unfold truthy. rewrite Hn. cbn [orb].
  destruct (eqb x (lit 0 0)) eqn:E; [| reflexivity].
  apply SFeqb_SFleb in E. rewrite E in Hnle. discriminate.
Qed.

(** On three numbers the test of the effect comes down to four
    comparisons. *)
Lemma useEffect_four_tests (a h w : binary64) (hu wu : string)
    (result : State binary64) :
  useEffect (Build_FormValues (Some a) (Some h) (Some w) hu wu) result =
  if (a >=? lit 1 0) && (a <=? lit 120 0) && (h >? lit 0 0) && (w >? lit 0 0)
  then onSubmit (Build_BMICalculation a h w hu wu) result
  else result.
Proof.
  pose proof (useEffect_values_of (Build_BMICalculation a h w hu wu) result)
    as E.
  unfold values_of in E. cbn [age height weight heightUnit weightUnit] in E.
  rewrite E. unfold age_test.
  assert (Ta : a >= lit 1 0 -> truthy (Some a) = true).
  { intros Ha. apply (above_positive (lit 1 0) a);
      [exact (proj1 one_and_tenth_positive) | exact Ha]. }
  destruct (a >=? lit 1 0) eqn:Ea; [rewrite (Ta eq_refl) |];
    (destruct (h >? lit 0 0) eqn:Eh; [rewrite (positive_truthy h Eh) |]);
    (destruct (w >? lit 0 0) eqn:Ew; [rewrite (positive_truthy w Ew) |]);
    repeat match goal with
           | |- context [truthy ?x] => destruct (truthy x)
           end;
    destruct (a <=? lit 120 0); reflexivity.
Qed.

(** X4: the test of the live-calculation effect comes down to four
    comparisons: the effect computes when the three numeric fields hold
    numbers, the age is from 1 to 120 and the height and the weight are
    above 0, and it leaves the state alone otherwise, in particular when a
    field is undefined or empty (NaN).  The truthiness tests
    [age && height && weight] add nothing. *)
Theorem useEffect_test (values : FormValues binary64)
    (result : State binary64) :
  useEffect values result =
  match w_age values, w_height values, w_weight values with
  | Some a, Some h, Some w =>
      if (a >=? lit 1 0) && (a <=? lit 120 0)
         && (h >? lit 0 0) && (w >? lit 0 0)
      then onSubmit (Build_BMICalculation a h w (w_heightUnit values)
                       (w_weightUnit values)) result
      else result
  | _, _, _ => result
  end.
Proof.
  destruct values as [[a |] [h |] [w |] hu wu];
    cbn [w_age w_height w_weight w_heightUnit w_weightUnit];
    try reflexivity.
  apply useEffect_four_tests.
Qed.

(** On values that the schema accepts, the effect computes what
    [onSubmit] computes on the parsed measurement. *)
Lemma accepted_effect
    (values : FormValues binary64) (data : BMICalculation binary64)
    (result : State binary64) :
  safeParse bmiCalculationSchema values = inl data ->
  useEffect values result = onSubmit data result.
Proof.
  intros Hp. apply safeParse_inl in Hp.
  cbn [bmiCalculationSchema s_age s_height s_weight] in Hp.
  destruct Hp as (-> & Ha & Hh & Hw & _ & _).
  apply (parse_number_min_max (N := binary64_Number)) in Ha;
    [| vm_compute; reflexivity ..].
  apply (parse_number_min (N := binary64_Number)) in Hh;
    [| vm_compute; reflexivity].
  apply (parse_number_min (N := binary64_Number)) in Hw;
    [| vm_compute; reflexivity].
  destruct Ha as [Ha1 Ha2].
  unfold values_of. rewrite useEffect_four_tests. rewrite Ha1, Ha2.
  destruct (above_positive (lit 1 1) (height data)
              (proj2 one_and_tenth_positive) Hh) as [-> _].
  destruct (above_positive (lit 1 1) (weight data)
              (proj2 one_and_tenth_positive) Hw) as [-> _].
  destruct data; reflexivity.
Qed.

(** X5: whatever the schema accepts passes the test of the effect: on values
    that the submit handler takes, the effect has already computed what the
    handler computes. *)
Theorem accepted_values_pass_effect
    (values : FormValues binary64) (data : BMICalculation binary64)
    (result : State binary64) :
  safeParse bmiCalculationSchema values = inl data ->
  useEffect values result = onSubmit data result /\
  handleSubmit values result = useEffect values result.
Proof.
  intros Hp. rewrite (accepted_effect values data result Hp).
  unfold handleSubmit. rewrite Hp. split; reflexivity.
Qed.

Lemma accepted_values_pass_effect_witness :
  let values : FormValues binary64 :=
    Build_FormValues (Some (lit 30 0)) (Some (lit 180 0)) (Some (lit 75 0))
      "cm" "kg" in
  let data : BMICalculation binary64 :=
    Build_BMICalculation (lit 30 0) (lit 180 0) (lit 75 0) "cm" "kg" in
  safeParse bmiCalculationSchema values = inl data /\
  useEffect values None = onSubmit data None /\
  handleSubmit values None = useEffect values None.
Proof.
  intros values data.
  assert (H : safeParse bmiCalculationSchema values = inl data)
    by (vm_compute; reflexivity).
  split; [exact H |].
  exact (accepted_values_pass_effect values data None H).
Defined.

(** X6: where the two validations differ.  On three numbers, the schema
    accepts the form exactly when the test of the effect passes and, on top
    of it, the height and the weight are at least 0.1 and the units are
    among those of the enumerations: the effect alone lets through heights
    and weights between 0 and 0.1 and any unit string. *)
Theorem validation_gap (a h w : binary64) (hu wu : string) :
  let values := Build_FormValues (Some a) (Some h) (Some w) hu wu in
  (exists data, safeParse bmiCalculationSchema values = inl data) <->
  (a >=? lit 1 0) && (a <=? lit 120 0) && (h >? lit 0 0) && (w >? lit 0 0)
    = true /\
  h >= lit 1 1 /\ w >= lit 1 1 /\
  (hu = "cm" \/ hu = "ft") /\ (wu = "kg" \/ wu = "lbs").
Proof.
  intros values. split.
  - intros [data Hp]. apply safeParse_inl in Hp.
    cbn [bmiCalculationSchema s_age s_height s_weight
           s_heightUnit s_weightUnit] in Hp.
    destruct Hp as (Hv & Ha & Hh & Hw & Hhu & Hwu).
    apply (parse_number_min_max (N := binary64_Number)) in Ha;
      [| vm_compute; reflexivity ..].
    apply (parse_number_min (N := binary64_Number)) in Hh;
      [| vm_compute; reflexivity].
    apply (parse_number_min (N := binary64_Number)) in Hw;
      [| vm_compute; reflexivity].
    apply existsb_two in Hhu, Hwu.
    unfold values, values_of in Hv. injection Hv as -> -> -> -> ->.
    destruct Ha as [Ha1 Ha2]. rewrite Ha1, Ha2.
    destruct (above_positive (lit 1 1) (height data)
                (proj2 one_and_tenth_positive) Hh) as [-> _].
    destruct (above_positive (lit 1 1) (weight data)
                (proj2 one_and_tenth_positive) Hw) as [-> _].
    tauto.
  - intros (Ht & Hh & Hw & Hhu & Hwu).
    apply andb_true_iff in Ht. destruct Ht as [Ht _].
    apply andb_true_iff in Ht. destruct Ht as [Ht _].
    apply andb_true_iff in Ht. destruct Ht as [Ha1 Ha2].
    exists (Build_BMICalculation a h w hu wu).
    apply safeParse_inl.
    cbn [bmiCalculationSchema s_age s_height s_weight
           s_heightUnit s_weightUnit age height weight heightUnit weightUnit].
    split; [reflexivity |].
    split.
    { apply (parse_number_min_max (N := binary64_Number));
        [vm_compute; reflexivity .. | split; assumption]. }
    split.
    { apply (parse_number_min (N := binary64_Number));
        [vm_compute; reflexivity | assumption]. }
    split.
    { apply (parse_number_min (N := binary64_Number));
        [vm_compute; reflexivity | assumption]. }
    split; apply existsb_two; assumption.
Qed.

End SchemaAndEffect.

(** ** The writers of the result *)

Section Writers.

Context {num : Type} {N : Number num}.
Local Open Scope string_scope.
Local Open Scope num_scope.

(** The effect either replaces the state, by a result that does not depend
    on it, or leaves it as it is. *)
Lemma useEffect_cases (values : FormValues num) (result : State num) :
  useEffect values result =
  match useEffect values None with
  | Some r => Some r
  | None => result
  end.
Proof.
  unfold useEffect.
  destruct (w_age values) as [a |], (w_height values) as [h |],
    (w_weight values) as [w |]; try reflexivity.
  destruct (truthy (Some a) && truthy (Some h) && truthy (Some w)
            && (a >=? lit 1 0) && (a <=? lit 120 0)
            && (h >? lit 0 0) && (w >? lit 0 0)); reflexivity.
Qed.

Lemma useEffect_idempotent (values : FormValues num) (result : State num) :
  useEffect values (useEffect values result) = useEffect values result.
Proof.
  rewrite (useEffect_cases values (useEffect values result)).
  rewrite (useEffect_cases values result).
  destruct (useEffect values None); reflexivity.
Qed.

Lemma useEffect_consistent (values : FormValues num) (result : State num) :
  consistent result -> consistent (useEffect values result).
Proof.
  intros H. unfold useEffect.
  destruct (w_age values) as [a |], (w_height values) as [h |],
    (w_weight values) as [w |]; try exact H.
  destruct (truthy (Some a) && truthy (Some h) && truthy (Some w)
            && (a >=? lit 1 0) && (a <=? lit 120 0)
            && (h >? lit 0 0) && (w >? lit 0 0)); [| exact H].
  simpl. repeat split.
Qed.

Lemma handleSubmit_consistent (values : FormValues num) (result : State num) :
  consistent result -> consistent (handleSubmit values result).
Proof.
  intros H. unfold handleSubmit.
  destruct (safeParse bmiCalculationSchema values); [| exact H].
  rewrite onSubmit_unfold. simpl. repeat split.
Qed.

Lemma perform_consistent (result : State num) (c : call num) :
  consistent result -> consistent (perform result c).
Proof.
  intros H. destruct c as [values | values |]; cbn [perform].
  - apply handleSubmit_consistent. exact H.
  - apply useEffect_consistent. exact H.
  - exact I.
Qed.

(** X9: the result that the component stores always goes with its own BMI.
    After any sequence of runs of the three writers of the hook (the submit
    handler, the body of the effect, [resetForm]), in any order and on any
    values of the form, stale ones included, the category, the description
    and the color of a stored result are those that [getBMICategory] gives
    for the stored [bmi], the unrounded number and not the one decimal that
    the card prints. *)
Theorem stored_result_is_consistent
    (calls : list (call num)) (r : BMIResult num) :
  fold_left perform calls None = Some r ->
  category r = CategoryInfo.category (getBMICategory (bmi r)) /\
  description r = CategoryInfo.description (getBMICategory (bmi r)) /\
  color r = CategoryInfo.color (getBMICategory (bmi r)).
Proof.
  assert (H : forall start : State num,
             consistent start -> consistent (fold_left perform calls start)).
  { induction calls as [| c calls IH]; intros start Hs; cbn [fold_left].
    - exact Hs.
    - apply IH. apply perform_consistent. exact Hs. }
  intros E. specialize (H None I). rewrite E in H. exact H.
Qed.

End Writers.

Lemma stored_result_is_consistent_witness :
  let old : FormValues binary64 :=
    Build_FormValues (Some (lit 30 0)) (Some (lit 180 0)) (Some (lit 75 0))
      "cm" "kg" in
  let calls : list (call binary64) :=
    [CallEffect old; CallSubmit old; CallReset; CallEffect old] in
  exists r : BMIResult binary64,
    fold_left perform calls None = Some r /\
    category r = CategoryInfo.category (getBMICategory (bmi r)) /\
    description r = CategoryInfo.description (getBMICategory (bmi r)) /\
    color r = CategoryInfo.color (getBMICategory (bmi r)).
Proof.
  intros old calls.
  destruct (fold_left perform calls None) as [r |] eqn:E.
  - exists r. split; [reflexivity |].
    exact (stored_result_is_consistent calls r E).
  - vm_compute in E. discriminate E.
Defined.

Section SubmitAfterEffect.

(** X10: once the effect has run on the values that the form holds,
    submitting those values leaves the result as it is: a submit that the
    schema accepts stores what the effect has stored, and one that it
    rejects stores nothing. *)
Theorem submit_after_effect
    (values : FormValues binary64) (result : State binary64) :
  handleSubmit values (useEffect values result) = useEffect values result.
Proof.
  destruct (safeParse bmiCalculationSchema values) as [data | issues] eqn:Hp.
  - unfold handleSubmit. rewrite Hp.
    rewrite <- (accepted_effect values data (useEffect values result) Hp).
    apply useEffect_idempotent.
  - unfold handleSubmit. rewrite Hp. reflexivity.
Qed.

End SubmitAfterEffect.

(** ** What the schema reports *)

Section Issues.

Local Open Scope string_scope.
Local Open Scope num_scope.

(** The outcome of a number field with a lower and an upper bound, and of
    one with a lower bound only, case by case. *)
Lemma parse_min_max_cases {num : Type} {N : Number num} {L : NumberLaws N}
    (p m1 m2 : string) (lo hi : num) (input : option num) :
  lo <= hi ->
  parse_number p [Min lo m1; Max hi m2] input =
  match input with
  | None => inr [Build_issue p invalid_type None]
  | Some x =>
      if isNaN x then inr [Build_issue p invalid_type None]
      else if x <? lo then inr [Build_issue p too_small (Some m1)]
      else if x >? hi then inr [Build_issue p too_big (Some m2)]
      else inl x
  end.
Proof.
  intros Hle. destruct input as [x |]; [| reflexivity].
  unfold parse_number. destruct (isNaN x) eqn:Hn; [reflexivity |].
  cbn [flat_map run_check app].
  destruct (x <? lo) eqn:E1; [| destruct (x >? hi); reflexivity].
  assert (E2 : (x >? hi) = false).
  { apply leb_not_ltb. apply ltb_leb_incl in E1.
    exact (leb_trans _ _ _ E1 Hle). }
  rewrite E2. reflexivity.
Qed.

Lemma parse_min_cases {num : Type} {N : Number num}
    (p m1 : string) (lo : num) (input : option num) :
  parse_number p [Min lo m1] input =
  match input with
  | None => inr [Build_issue p invalid_type None]
  | Some x =>
      if isNaN x then inr [Build_issue p invalid_type None]
      else if x <? lo then inr [Build_issue p too_small (Some m1)]
      else inl x
  end.
Proof.
  destruct input as [x |]; [| reflexivity].
  unfold parse_number. destruct (isNaN x); [reflexivity |].
  cbn [flat_map run_check app]. destruct (x <? lo); reflexivity.
Qed.

Lemma one_le_120 : (lit 1 0 : binary64) <= lit 120 0.
Proof. vm_compute; reflexivity. Qed.

(** X7: the outcome of each numeric field, case by case: an input left
    undefined or empty (NaN) is an [invalid_type] with the library's own
    message, a number that breaks a bound gets the one message of that
    bound, and any other number is accepted.  An age cannot break both of
    its bounds; its upper bound is inclusive although the message for it
    says "less than 120". *)
Theorem numeric_field_outcomes (input : option binary64) :
  parse_number "age" (s_age bmiCalculationSchema) input =
    match input with
    | None => inr [Build_issue "age" invalid_type None]
    | Some a =>
        if isNaN a then inr [Build_issue "age" invalid_type None]
        else if a <? lit 1 0 then
          inr [Build_issue "age" too_small (Some "Age must be at least 1")]
        else if a >? lit 120 0 then
          inr [Build_issue "age" too_big (Some "Age must be less than 120")]
        else inl a
    end /\
  parse_number "height" (s_height bmiCalculationSchema) input =
    match input with
    | None => inr [Build_issue "height" invalid_type None]
    | Some h =>
        if isNaN h then inr [Build_issue "height" invalid_type None]
        else if h <? lit 1 1 then
          inr [Build_issue "height" too_small
                 (Some "Height must be greater than 0")]
        else inl h
    end /\
  parse_number "weight" (s_weight bmiCalculationSchema) input =
    match input with
    | None => inr [Build_issue "weight" invalid_type None]
    | Some w =>
        if isNaN w then inr [Build_issue "weight" invalid_type None]
        else if w <? lit 1 1 then
          inr [Build_issue "weight" too_small
                 (Some "Weight must be greater than 0")]
        else inl w
    end.
Proof.
  cbn [bmiCalculationSchema s_age s_height s_weight].
  split; [apply parse_min_max_cases; exact one_le_120 |].
  split; apply parse_min_cases.
Qed.

Lemma one_issue_min_max (p m1 m2 : string) (lo hi : binary64)
    (input : option binary64) :
  lo <= hi ->
  one_issue p (parse_number p [Min lo m1; Max hi m2] input).
Proof.
  intros Hle. rewrite (parse_min_max_cases (N := binary64_Number)) by exact Hle.
  destruct input as [x |]; [| do 2 eexists; reflexivity].
  destruct (isNaN x); [do 2 eexists; reflexivity |].
  destruct (x <? lo); [do 2 eexists; reflexivity |].
  destruct (x >? hi); [do 2 eexists; reflexivity | exact I].
Qed.

Lemma one_issue_min (p m1 : string) (lo : binary64)
    (input : option binary64) :
  one_issue p (parse_number p [Min lo m1] input).
Proof.
  rewrite parse_min_cases.
  destruct input as [x |]; [| do 2 eexists; reflexivity].
  destruct (isNaN x); [do 2 eexists; reflexivity |].
  destruct (x <? lo); [do 2 eexists; reflexivity | exact I].
Qed.

Lemma one_issue_enum (p : string) (options : list string) (input : string) :
  one_issue p (parse_enum p options input).
Proof.
  unfold parse_enum.
  destruct (existsb (String.eqb input) options);
    [exact I | do 2 eexists; reflexivity].
Qed.

(** X8: when the schema rejects the form it says why: there is at least one
    issue, every issue is at one of the five fields, and no field has more
    than one. *)
Theorem safeParse_issues
    (values : FormValues binary64) (issues : list issue) :
  safeParse bmiCalculationSchema values = inr issues ->
  issues <> [] /\
  NoDup (map path issues) /\
  Forall (fun i => In (path i)
                     ["age"; "height"; "weight"; "heightUnit"; "weightUnit"])
    issues.
Proof.
  unfold safeParse.
  cbn [bmiCalculationSchema s_age s_height s_weight s_heightUnit s_weightUnit].
  pose proof (one_issue_min_max "age" "Age must be at least 1"
                "Age must be less than 120" (lit 1 0) (lit 120 0)
                (w_age values) one_le_120) as Ha.
  pose proof (one_issue_min "height" "Height must be greater than 0"
                (lit 1 1) (w_height values)) as Hh.
  pose proof (one_issue_min "weight" "Weight must be greater than 0"
                (lit 1 1) (w_weight values)) as Hw.
  pose proof (one_issue_enum "heightUnit" ["cm"; "ft"] (w_heightUnit values))
    as Hhu.
  pose proof (one_issue_enum "weightUnit" ["kg"; "lbs"] (w_weightUnit values))
    as Hwu.
  destruct (parse_number "age" _ (w_age values)) as [a | la];
    destruct (parse_number "height" _ (w_height values)) as [h | lh];
    destruct (parse_number "weight" _ (w_weight values)) as [w | lw];
    destruct (parse_enum "heightUnit" _ (w_heightUnit values)) as [hu | lhu];
    destruct (parse_enum "weightUnit" _ (w_weightUnit values)) as [wu | lwu];
    try discriminate;
    intros H; injection H as <-;
    cbn [one_issue issues_of] in *;
    repeat match goal with
           | H : exists _, _ |- _ => destruct H as (? & H)
           end;
    subst; cbn [app map path];
    (split; [discriminate |]);
    (split; [repeat constructor; simpl; intuition discriminate
            | repeat constructor; simpl; tauto]).
Qed.

Lemma safeParse_issues_witness :
  let values : FormValues binary64 :=
    Build_FormValues (Some (lit 0 0)) None (Some S754_nan) "m" "kg" in
  exists issues : list issue,
    safeParse bmiCalculationSchema values = inr issues /\
    issues <> [] /\
    NoDup (map path issues) /\
    Forall (fun i => In (path i)
                       ["age"; "height"; "weight"; "heightUnit"; "weightUnit"])
      issues.
Proof.
  intros values.
  destruct (safeParse bmiCalculationSchema values) as [data | issues] eqn:E.
  - vm_compute in E. discriminate E.
  - exists issues. split; [reflexivity |].
    exact (safeParse_issues values issues E).
Defined.

End Issues.

(** * The arithmetic of binary64, and what it costs

    Each operation of binary64 rounds its exact result.  The lemmas below
    follow the rounding of [SpecFloat] on normal numbers: the result of a
    product or a quotient is a normal number within one unit of its last
    place (product) or two (quotient) of the exact result. *)

(** ** Rounding *)

Section Rounding.

Local Open Scope Z_scope.

(** The number of bits of a mantissa. *)
Lemma digits2_bounds (m : positive) :
  2 ^ (Z.pos (digits2_pos m) - 1) <= Z.pos m < 2 ^ Z.pos (digits2_pos m).
Proof.
  induction m as [p IH | p IH |]; cbn [digits2_pos].
  - rewrite Pos2Z.inj_succ. rewrite (Pos2Z.inj_xI p).
    replace (Z.succ (Z.pos (digits2_pos p)) - 1)
      with (Z.succ (Z.pos (digits2_pos p) - 1)) by lia.
    rewrite !Z.pow_succ_r by lia.
    destruct IH as [Hlo Hhi].
    generalize dependent (2 ^ (Z.pos (digits2_pos p) - 1)).
    generalize dependent (2 ^ Z.pos (digits2_pos p)). intros. lia.
  - rewrite Pos2Z.inj_succ. rewrite (Pos2Z.inj_xO p).
    replace (Z.succ (Z.pos (digits2_pos p)) - 1)
      with (Z.succ (Z.pos (digits2_pos p) - 1)) by lia.
    rewrite !Z.pow_succ_r by lia.
    destruct IH as [Hlo Hhi].
    generalize dependent (2 ^ (Z.pos (digits2_pos p) - 1)).
    generalize dependent (2 ^ Z.pos (digits2_pos p)). intros. lia.
  - cbn. lia.
Qed.

(** A mantissa between two consecutive powers of two has that many
    bits. *)
Lemma digits2_unique (m : positive) (d : Z) :
  2 ^ (d - 1) <= Z.pos m < 2 ^ d -> Z.pos (digits2_pos m) = d.
Proof.
  intros [Hlo Hhi]. pose proof (digits2_bounds m) as [Blo Bhi].
  destruct (Z.lt_trichotomy (Z.pos (digits2_pos m)) d) as [H | [H | H]];
    [| exact H |].
  - assert (2 ^ Z.pos (digits2_pos m) <= 2 ^ (d - 1))
      by (apply Z.pow_le_mono_r; lia).
    lia.
  - assert (0 < d).
    { destruct (Z.le_gt_cases d 0) as [Hd | Hd]; [| exact Hd].
      destruct (Z.eq_dec d 0) as [-> | Hn]; [cbn in Hhi; lia |].
      rewrite Z.pow_neg_r in Hhi by lia. lia. }
    assert (2 ^ d <= 2 ^ (Z.pos (digits2_pos m) - 1))
      by (apply Z.pow_le_mono_r; lia).
    lia.
Qed.

(** One step of the shift halves the mantissa. *)
Lemma shr_1_m (mrs : shr_record) :
  0 <= shr_m mrs -> shr_m (shr_1 mrs) = shr_m mrs / 2.
Proof.
  destruct mrs as [m r s]. cbn [shr_m]. intros Hm.
  rewrite <- Z.div2_div.
  destruct m as [| [p | p |] | p]; try reflexivity. lia.
Qed.

Lemma iter_shr_1_m (p : positive) (mrs : shr_record) :
  0 <= shr_m mrs ->
  shr_m (iter_pos shr_1 p mrs) = shr_m mrs / 2 ^ Z.pos p.
Proof.
  revert mrs. induction p as [p IH | p IH |]; intros mrs Hm; cbn [iter_pos].
  - assert (H1 : 0 <= shr_m (shr_1 mrs)).
    { rewrite shr_1_m by exact Hm. apply Z.div_pos; lia. }
    assert (H2 : 0 <= shr_m (iter_pos shr_1 p (shr_1 mrs))).
    { rewrite IH by exact H1. apply Z.div_pos; lia. }
    rewrite IH by exact H2. rewrite IH by exact H1.
    rewrite shr_1_m by exact Hm.
    rewrite !Z.div_div by lia. f_equal.
    rewrite (Pos2Z.inj_xI p).
    replace (2 * Z.pos p + 1) with (1 + Z.pos p + Z.pos p) by lia.
    rewrite !Z.pow_add_r by lia. lia.
  - assert (H2 : 0 <= shr_m (iter_pos shr_1 p mrs)).
    { rewrite IH by exact Hm. apply Z.div_pos; lia. }
    rewrite IH by exact H2. rewrite IH by exact Hm.
    rewrite !Z.div_div by lia. f_equal.
    rewrite (Pos2Z.inj_xO p).
    replace (2 * Z.pos p) with (Z.pos p + Z.pos p) by lia.
    rewrite !Z.pow_add_r by lia. lia.
  - rewrite shr_1_m by exact Hm. reflexivity.
Qed.

(** The shift divides the mantissa by a power of two, rounding down, and
    raises the exponent by as much. *)
Lemma shr_m_spec (mrs : shr_record) (e n : Z) :
  0 <= shr_m mrs -> 0 <= n ->
  shr_m (fst (shr mrs e n)) = shr_m mrs / 2 ^ n /\
  snd (shr mrs e n) = e + n.
Proof.
  intros Hm Hn. unfold shr. destruct n as [| p | p]; cbn [fst snd].
  - rewrite Z.div_1_r. lia.
  - split; [apply iter_shr_1_m; exact Hm | reflexivity].
  - lia.
Qed.

Lemma shr_record_of_loc_m (m : Z) (l : location) :
  shr_m (shr_record_of_loc m l) = m.
Proof. destruct l as [| [ | | ]]; reflexivity. Qed.

Lemma round_nearest_even_cases (m : Z) (l : location) :
  round_nearest_even m l = m \/ round_nearest_even m l = m + 1.
Proof.
  unfold round_nearest_even.
  destruct l as [| [ | | ]]; try tauto. destruct (Z.even m); tauto.
Qed.

Lemma fexp_normal (x : Z) :
  -1074 <= x - 53 -> fexp prec emax x = x - 53.
Proof. unfold fexp, emin, prec, emax. lia. Qed.

(** The first step of rounding, on a mantissa of at least 53 bits whose
    53 leading bits stand above the smallest exponent: the mantissa is cut
    down to its 53 leading bits. *)
Lemma shr_fexp_normal (m : positive) (e : Z) (l : location) :
  53 <= Z.pos (digits2_pos m) ->
  -1074 <= Z.pos (digits2_pos m) + e - 53 ->
  let n := Z.pos (digits2_pos m) - 53 in
  shr_m (fst (shr_fexp prec emax (Z.pos m) e l)) = Z.pos m / 2 ^ n /\
  snd (shr_fexp prec emax (Z.pos m) e l) = e + n.
Proof.
  intros Hd He n. unfold shr_fexp. cbn [Zdigits2].
  rewrite fexp_normal by lia.
  replace (Z.pos (digits2_pos m) + e - 53 - e) with n by (unfold n; lia).
  destruct (shr_m_spec (shr_record_of_loc (Z.pos m) l) e n) as [H1 H2];
    [rewrite shr_record_of_loc_m; lia | unfold n; lia |].
  rewrite shr_record_of_loc_m in H1. split; assumption.
Qed.

(** The 53 leading bits of a mantissa. *)
Lemma leading_bits (m : positive) :
  53 <= Z.pos (digits2_pos m) ->
  let n := Z.pos (digits2_pos m) - 53 in
  let F := Z.pos m / 2 ^ n in
  2 ^ 52 <= F < 2 ^ 53 /\ F * 2 ^ n <= Z.pos m < (F + 1) * 2 ^ n.
Proof.
  intros Hd n F. pose proof (digits2_bounds m) as [Blo Bhi].
  assert (Hn : 0 <= n) by (unfold n; lia).
  assert (Hp : 0 < 2 ^ n) by (apply Z.pow_pos_nonneg; lia).
  assert (E1 : 2 ^ (Z.pos (digits2_pos m) - 1) = 2 ^ 52 * 2 ^ n).
  { rewrite <- Z.pow_add_r by lia. f_equal. unfold n. lia. }
  assert (E2 : 2 ^ Z.pos (digits2_pos m) = 2 ^ 53 * 2 ^ n).
  { rewrite <- Z.pow_add_r by lia. f_equal. unfold n. lia. }
  rewrite E1 in Blo. rewrite E2 in Bhi.
  assert (D : F * 2 ^ n <= Z.pos m < (F + 1) * 2 ^ n).
  { unfold F. pose proof (Z.div_mod (Z.pos m) (2 ^ n)) as Hdm.
    pose proof (Z.mod_pos_bound (Z.pos m) (2 ^ n) Hp) as Hmod. lia. }
  split; [| exact D].
  destruct D as [D1 D2]. split; nia.
Qed.

(** The second step, after the mantissa may have gone up by one: a
    mantissa of 53 bits stays, and [2^53] becomes [2^52] one exponent
    higher. *)
Lemma shr_fexp_again (q : positive) (e : Z) :
  2 ^ 52 <= Z.pos q <= 2 ^ 53 -> -1074 <= e ->
  exists (M : positive) (e3 : Z),
    shr_m (fst (shr_fexp prec emax (Z.pos q) e loc_Exact)) = Z.pos M /\
    snd (shr_fexp prec emax (Z.pos q) e loc_Exact) = e3 /\
    2 ^ 52 <= Z.pos M < 2 ^ 53 /\ e <= e3 <= e + 1 /\
    Z.pos M * 2 ^ (e3 - e) = Z.pos q.
Proof.
  intros [Hlo Hhi] He.
  destruct (Z.eq_dec (Z.pos q) (2 ^ 53)) as [E | NE].
  - assert (Hd : Z.pos (digits2_pos q) = 54).
    { apply digits2_unique. rewrite E. split; [reflexivity |].
      apply Z.pow_lt_mono_r; lia. }
    destruct (shr_fexp_normal q e loc_Exact) as [H1 H2]; [lia | lia |].
    rewrite Hd in H1, H2. change (54 - 53) with 1 in H1, H2.
    exists (2 ^ 52)%positive, (e + 1). rewrite H1, H2, E.
    replace (e + 1 - e) with 1 by lia.
    repeat split; try reflexivity; lia.
  - assert (Hd : Z.pos (digits2_pos q) = 53).
    { apply digits2_unique. change (53 - 1) with 52. lia. }
    destruct (shr_fexp_normal q e loc_Exact) as [H1 H2]; [lia | lia |].
    rewrite Hd in H1, H2. change (53 - 53) with 0 in H1, H2.
    rewrite Z.pow_0_r, Z.div_1_r in H1.
    exists q, e. rewrite H1, H2.
    replace (e + 0 - e) with 0 by lia. rewrite Z.add_0_r.
    replace (e - e) with 0 by lia. rewrite Z.pow_0_r.
    repeat split; try reflexivity; lia.
Qed.

(** Rounding a mantissa of [d >= 53] bits at exponent [e], when the result
    is a normal number: the result has the sign given, a mantissa of 53
    bits and an exponent [d + e - 53] or one more, and is within one unit
    of its last place of [m * 2^e]. *)
Lemma binary_round_aux_normal (s : bool) (m : positive) (e : Z) (l : location) :
  53 <= Z.pos (digits2_pos m) ->
  -1074 <= Z.pos (digits2_pos m) + e - 53 ->
  Z.pos (digits2_pos m) + e - 53 < 971 ->
  exists (M : positive) (e3 : Z),
    binary_round_aux prec emax s (Z.pos m) e l = S754_finite s M e3 /\
    2 ^ 52 <= Z.pos M < 2 ^ 53 /\
    Z.pos (digits2_pos m) + e - 53 <= e3 <= Z.pos (digits2_pos m) + e - 52 /\
    Z.abs (Z.pos M * 2 ^ (e3 - e) - Z.pos m) <= 2 ^ (e3 - e).
Proof.
  intros Hd Hlo Hhi.
  set (n := Z.pos (digits2_pos m) - 53).
  assert (Hn : 0 <= n) by (unfold n; lia).
  assert (Hp : 0 < 2 ^ n) by (apply Z.pow_pos_nonneg; lia).
  destruct (shr_fexp_normal m e l Hd Hlo) as [H1 H2]. fold n in H1, H2.
  destruct (leading_bits m Hd) as [[F1 F2] [D1 D2]]. fold n in F1, F2, D1, D2.
  unfold binary_round_aux.
  destruct (shr_fexp prec emax (Z.pos m) e l) as [mrs' e'].
  cbn [fst snd] in H1, H2. subst e'.
  set (F := Z.pos m / 2 ^ n) in *.
  destruct (round_nearest_even_cases (shr_m mrs') (loc_of_shr_record mrs'))
    as [R | R]; rewrite R, H1.
  - (* the mantissa stays *)
    destruct F as [| q | q] eqn:EF; try lia.
    destruct (shr_fexp_again q (e + n)) as (M & e3 & A1 & A2 & A3 & A4 & A5);
      [lia | lia |].
    destruct (shr_fexp prec emax (Z.pos q) (e + n) loc_Exact) as [mrs'' e''].
    cbn [fst snd] in A1, A2. subst e''. rewrite A1.
    assert (Hle : (e3 <=? emax - prec) = true)
      by (apply Z.leb_le; unfold emax, prec, n in *; lia).
    rewrite Hle. exists M, e3.
    split; [reflexivity |]. split; [exact A3 |].
    split; [unfold n in *; lia |].
    assert (E : e3 - e = (e3 - (e + n)) + n) by lia.
    assert (Hp3 : 0 < 2 ^ (e3 - (e + n))) by (apply Z.pow_pos_nonneg; lia).
    rewrite E, Z.pow_add_r by lia.
    rewrite Z.mul_assoc, A5. nia.
  - (* the mantissa goes up by one *)
    assert (Hq : exists q, F + 1 = Z.pos q)
      by (destruct (F + 1) as [| q | q] eqn:EF; try lia; eauto).
    destruct Hq as [q Hq]. rewrite Hq.
    destruct (shr_fexp_again q (e + n)) as (M & e3 & A1 & A2 & A3 & A4 & A5);
      [lia | lia |].
    destruct (shr_fexp prec emax (Z.pos q) (e + n) loc_Exact) as [mrs'' e''].
    cbn [fst snd] in A1, A2. subst e''. rewrite A1.
    assert (Hle : (e3 <=? emax - prec) = true)
      by (apply Z.leb_le; unfold emax, prec, n in *; lia).
    rewrite Hle. exists M, e3.
    split; [reflexivity |]. split; [exact A3 |].
    split; [unfold n in *; lia |].
    assert (E : e3 - e = (e3 - (e + n)) + n) by lia.
    assert (Hp3 : 0 < 2 ^ (e3 - (e + n))) by (apply Z.pow_pos_nonneg; lia).
    rewrite E, Z.pow_add_r by lia.
    rewrite Z.mul_assoc, A5, <- Hq. nia.
Qed.

Lemma normal_between_spec (lo hi : Z) (x : binary64) :
  normal_between lo hi x = true <->
  exists m e, x = S754_finite false m e /\
              2 ^ 52 <= Z.pos m < 2 ^ 53 /\ lo <= e <= hi.
Proof.
  split.
  - destruct x as [s | s | | [|] m e]; try discriminate.
    unfold normal_between.
    rewrite !andb_true_iff, Z.eqb_eq, !Z.leb_le. intros [[Hd Hlo] Hhi].
    exists m, e. split; [reflexivity |].
    pose proof (digits2_bounds m) as B. rewrite Hd in B.
    change (53 - 1) with 52 in B. lia.
  - intros (m & e & -> & Hm & He). unfold normal_between.
    rewrite !andb_true_iff, Z.eqb_eq, !Z.leb_le.
    repeat split; try lia. apply digits2_unique. change (53 - 1) with 52. lia.
Qed.

(** The product of two normal numbers, when it is a normal number. *)
Lemma SFmul_normal_Z (mx my : positive) (ex ey : Z) :
  2 ^ 52 <= Z.pos mx < 2 ^ 53 -> 2 ^ 52 <= Z.pos my < 2 ^ 53 ->
  -1074 <= ex + ey + 52 -> ex + ey + 53 < 971 ->
  exists (M : positive) (e3 : Z),
    SFmul prec emax (S754_finite false mx ex) (S754_finite false my ey)
      = S754_finite false M e3 /\
    2 ^ 52 <= Z.pos M < 2 ^ 53 /\
    ex + ey + 52 <= e3 <= ex + ey + 54 /\
    Z.abs (Z.pos M * 2 ^ (e3 - (ex + ey)) - Z.pos mx * Z.pos my)
      <= 2 ^ (e3 - (ex + ey)).
Proof.
  intros Hx Hy Hlo Hhi. cbn [SFmul xorb].
  assert (Hp : 2 ^ 104 <= Z.pos (mx * my) < 2 ^ 106).
  { rewrite Pos2Z.inj_mul.
    change (2 ^ 104) with (2 ^ 52 * 2 ^ 52).
    change (2 ^ 106) with (2 ^ 53 * 2 ^ 53). nia. }
  assert (Hd : 105 <= Z.pos (digits2_pos (mx * my)) <= 106).
  { pose proof (digits2_bounds (mx * my)) as [B1 B2]. split.
    - destruct (Z.le_gt_cases 105 (Z.pos (digits2_pos (mx * my))))
        as [H | H]; [exact H |].
      assert (2 ^ Z.pos (digits2_pos (mx * my)) <= 2 ^ 104)
        by (apply Z.pow_le_mono_r; lia).
      lia.
    - destruct (Z.le_gt_cases (Z.pos (digits2_pos (mx * my))) 106)
        as [H | H]; [exact H |].
      assert (2 ^ 106 <= 2 ^ (Z.pos (digits2_pos (mx * my)) - 1))
        by (apply Z.pow_le_mono_r; lia).
      lia. }
  destruct (binary_round_aux_normal false (mx * my) (ex + ey) loc_Exact)
    as (M & e3 & E & HM & He & Herr); [lia | lia | lia |].
  exists M, e3. rewrite E. rewrite Pos2Z.inj_mul in Herr.
  repeat split; try lia.
Qed.

(** The quotient of two normal numbers, when it is a normal number: the
    result is within one unit of its last place of [q * 2^e'], where [q]
    is the integer part of the quotient of the mantissas, scaled. *)
Lemma SFdiv_normal_Z (mx my : positive) (ex ey : Z) :
  2 ^ 52 <= Z.pos mx < 2 ^ 53 -> 2 ^ 52 <= Z.pos my < 2 ^ 53 ->
  -1074 <= ex - ey - 53 -> ex - ey - 52 < 971 ->
  exists (M : positive) (e3 q : Z),
    SFdiv prec emax (S754_finite false mx ex) (S754_finite false my ey)
      = S754_finite false M e3 /\
    2 ^ 52 <= Z.pos M < 2 ^ 53 /\
    ex - ey - 53 <= e3 <= ex - ey - 51 /\
    q * Z.pos my <= Z.pos mx * 2 ^ 53 < (q + 1) * Z.pos my /\
    Z.abs (Z.pos M * 2 ^ (e3 - (ex - ey - 53)) - q)
      <= 2 ^ (e3 - (ex - ey - 53)).
Proof.
  intros Hx Hy Hlo Hhi. cbn [SFdiv xorb]. unfold SFdiv_core_binary.
  cbn [Zdigits2].
  assert (Dx : Z.pos (digits2_pos mx) = 53)
    by (apply digits2_unique; change (53 - 1) with 52; lia).
  assert (Dy : Z.pos (digits2_pos my) = 53)
    by (apply digits2_unique; change (53 - 1) with 52; lia).
  rewrite Dx, Dy.
  replace (53 + ex - (53 + ey)) with (ex - ey) by lia.
  rewrite fexp_normal by lia.
  rewrite Z.min_l by lia.
  replace (ex - ey - (ex - ey - 53)) with 53 by lia.
  rewrite Z.shiftl_mul_pow2 by lia.
  pose proof (Z.div_eucl_eq (Z.pos mx * 2 ^ 53) (Z.pos my)) as Heq.
  pose proof (Z.mod_pos_bound (Z.pos mx * 2 ^ 53) (Z.pos my)) as Hmod.
  unfold Z.modulo in Hmod.
  destruct (Z.div_eucl (Z.pos mx * 2 ^ 53) (Z.pos my)) as [q r].
  specialize (Heq ltac:(lia)). specialize (Hmod ltac:(lia)).
  assert (Hq : 2 ^ 52 <= q < 2 ^ 54).
  { change (2 ^ 54) with (2 * 2 ^ 53). split; nia. }
  destruct q as [| pq | pq]; try lia.
  assert (Hd : 53 <= Z.pos (digits2_pos pq) <= 54).
  { pose proof (digits2_bounds pq) as [B1 B2]. split.
    - destruct (Z.le_gt_cases 53 (Z.pos (digits2_pos pq))) as [H | H];
        [exact H |].
      assert (2 ^ Z.pos (digits2_pos pq) <= 2 ^ 52)
        by (apply Z.pow_le_mono_r; lia).
      lia.
    - destruct (Z.le_gt_cases (Z.pos (digits2_pos pq)) 54) as [H | H];
        [exact H |].
      assert (2 ^ 54 <= 2 ^ (Z.pos (digits2_pos pq) - 1))
        by (apply Z.pow_le_mono_r; lia).
      lia. }
  destruct (binary_round_aux_normal false pq (ex - ey - 53)
              (new_location (Z.pos my) r))
    as (M & e3 & E & HM & He & Herr); [lia | lia | lia |].
  exists M, e3, (Z.pos pq). rewrite E.
  repeat split; try lia.
Qed.

End Rounding.

(** ** The accuracy of a product and of a quotient *)

Section Accuracy.

Local Open Scope Q_scope.

Lemma pow2_pos (e : Z) : 0 < 2 ^ e.
Proof. apply Qpower_0_lt. reflexivity. Qed.

Lemma pow2_add (a b : Z) : 2 ^ (a + b) == 2 ^ a * 2 ^ b.
Proof. apply Qpower_plus. discriminate. Qed.

Lemma pow2_inject (k : Z) : (0 <= k)%Z -> inject_Z (2 ^ k) == 2 ^ k.
Proof. intros Hk. rewrite Zpower_Qpower by exact Hk. reflexivity. Qed.

(** A bound between integers, scaled by a positive rational. *)
Lemma scaled_bound (a b c : Z) (u : Q) :
  (Z.abs (a - b) <= c)%Z -> 0 < u ->
  Qabs (inject_Z a * u - inject_Z b * u) <= inject_Z c * u.
Proof.
  intros H Hu.
  assert (H1 : (a - b <= c)%Z) by lia.
  assert (H2 : (b - a <= c)%Z) by lia.
  rewrite Zle_Qle in H1, H2.
  unfold Z.sub in H1, H2.
  rewrite inject_Z_plus, inject_Z_opp in H1, H2.
  apply Qabs_Qle_condition. split.
  - assert (G : (inject_Z b + - inject_Z a) * u <= inject_Z c * u)
      by (apply Qmult_le_compat_r; [exact H2 | lra]).
    lra.
  - assert (G : (inject_Z a + - inject_Z b) * u <= inject_Z c * u)
      by (apply Qmult_le_compat_r; [exact H1 | lra]).
    lra.
Qed.

Lemma B2Q_finite (m : positive) (e : Z) :
  B2Q (S754_finite false m e) = inject_Z (Z.pos m) * 2 ^ e.
Proof. reflexivity. Qed.

(** A normal number is at least [2^52] units of its last place. *)
Lemma normal_lower (m : positive) (e : Z) :
  (2 ^ 52 <= Z.pos m)%Z ->
  4503599627370496 * 2 ^ e <= B2Q (S754_finite false m e).
Proof.
  intros H. rewrite B2Q_finite. rewrite Zle_Qle in H.
  apply Qmult_le_compat_r; [exact H | pose proof (pow2_pos e); lra].
Qed.

(** The product of two normal numbers is a normal number within [2^-52]
    of the exact product, relative to itself. *)
Lemma SFmul_accurate (mx my : positive) (ex ey : Z) :
  (2 ^ 52 <= Z.pos mx < 2 ^ 53)%Z -> (2 ^ 52 <= Z.pos my < 2 ^ 53)%Z ->
  (-1074 <= ex + ey + 52)%Z -> (ex + ey + 53 < 971)%Z ->
  exists (M : positive) (e3 : Z),
    SFmul prec emax (S754_finite false mx ex) (S754_finite false my ey)
      = S754_finite false M e3 /\
    (2 ^ 52 <= Z.pos M < 2 ^ 53)%Z /\
    (ex + ey + 52 <= e3 <= ex + ey + 54)%Z /\
    Qabs (B2Q (S754_finite false M e3)
          - B2Q (S754_finite false mx ex) * B2Q (S754_finite false my ey))
      <= B2Q (S754_finite false M e3) * (1 # 2 ^ 52).
Proof.
  intros Hx Hy Hlo Hhi.
  destruct (SFmul_normal_Z mx my ex ey Hx Hy Hlo Hhi)
    as (M & e3 & E & HM & He & Herr).
  exists M, e3. split; [exact E |]. split; [exact HM |]. split; [exact He |].
  set (e := (ex + ey)%Z) in *. set (k := (e3 - e)%Z) in *.
  assert (Hk : (0 <= k)%Z) by (unfold k; lia).
  pose proof (pow2_pos e) as Hu.
  pose proof (scaled_bound _ _ _ (2 ^ e) Herr Hu) as B.
  pose proof (normal_lower M e3 (proj1 HM)) as L.
  assert (E3 : 2 ^ e3 == inject_Z (2 ^ k) * 2 ^ e).
  { rewrite pow2_inject by exact Hk. rewrite <- pow2_add.
    replace (k + e)%Z with e3 by (unfold k; lia). reflexivity. }
  assert (R : B2Q (S754_finite false M e3)
              == inject_Z (Z.pos M * 2 ^ k) * 2 ^ e).
  { rewrite B2Q_finite, inject_Z_mult, E3. ring. }
  assert (P : B2Q (S754_finite false mx ex) * B2Q (S754_finite false my ey)
              == inject_Z (Z.pos mx * Z.pos my) * 2 ^ e).
  { rewrite !B2Q_finite, inject_Z_mult. unfold e. rewrite pow2_add. ring. }
  rewrite P. rewrite R at 1. rewrite <- E3 in B.
  apply (Qle_trans _ _ _ B).
  change (1 # 2 ^ 52) with (1 # 4503599627370496). lra.
Qed.

(** The quotient of two normal numbers is a normal number within [2^-51]
    of the exact quotient, relative to itself. *)
Lemma SFdiv_accurate (mx my : positive) (ex ey : Z) :
  (2 ^ 52 <= Z.pos mx < 2 ^ 53)%Z -> (2 ^ 52 <= Z.pos my < 2 ^ 53)%Z ->
  (-1074 <= ex - ey - 53)%Z -> (ex - ey - 52 < 971)%Z ->
  exists (M : positive) (e3 : Z),
    SFdiv prec emax (S754_finite false mx ex) (S754_finite false my ey)
      = S754_finite false M e3 /\
    (2 ^ 52 <= Z.pos M < 2 ^ 53)%Z /\
    (ex - ey - 53 <= e3 <= ex - ey - 51)%Z /\
    Qabs (B2Q (S754_finite false M e3)
          - B2Q (S754_finite false mx ex) / B2Q (S754_finite false my ey))
      <= B2Q (S754_finite false M e3) * (1 # 2 ^ 51).
Proof.
  intros Hx Hy Hlo Hhi.
  destruct (SFdiv_normal_Z mx my ex ey Hx Hy Hlo Hhi)
    as (M & e3 & q & E & HM & He & [Hq1 Hq2] & Herr).
  exists M, e3. split; [exact E |]. split; [exact HM |]. split; [exact He |].
  set (e := (ex - ey - 53)%Z) in *. set (k := (e3 - e)%Z) in *.
  assert (Hk : (0 <= k)%Z) by (unfold k; lia).
  pose proof (pow2_pos e) as Hu.
  pose proof (scaled_bound _ _ _ (2 ^ e) Herr Hu) as B.
  pose proof (normal_lower M e3 (proj1 HM)) as L.
  assert (E3 : 2 ^ e3 == inject_Z (2 ^ k) * 2 ^ e).
  { rewrite pow2_inject by exact Hk. rewrite <- pow2_add.
    replace (k + e)%Z with e3 by (unfold k; lia). reflexivity. }
  assert (R : B2Q (S754_finite false M e3)
              == inject_Z (Z.pos M * 2 ^ k) * 2 ^ e).
  { rewrite B2Q_finite, inject_Z_mult, E3. ring. }
  assert (Hmy : 0 < inject_Z (Z.pos my)) by reflexivity.
  set (t := inject_Z (Z.pos mx * 2 ^ 53) / inject_Z (Z.pos my)).
  assert (T : B2Q (S754_finite false mx ex) / B2Q (S754_finite false my ey)
              == t * 2 ^ e).
  { rewrite !B2Q_finite. unfold t. rewrite inject_Z_mult.
    rewrite (pow2_inject 53) by lia.
    assert (X : 2 ^ ex == 2 ^ 53 * 2 ^ e * 2 ^ ey).
    { rewrite <- !pow2_add. replace (53 + e + ey)%Z with ex by (unfold e; lia).
      reflexivity. }
    rewrite X. field. split; [lra | pose proof (pow2_pos ey); lra]. }
  assert (T1 : inject_Z q <= t).
  { unfold t. apply Qle_shift_div_l; [exact Hmy |].
    rewrite <- inject_Z_mult, <- Zle_Qle. exact Hq1. }
  assert (T2 : t < inject_Z q + 1).
  { unfold t. apply Qlt_shift_div_r; [exact Hmy |].
    change 1 with (inject_Z 1).
    rewrite <- inject_Z_plus, <- inject_Z_mult, <- Zlt_Qlt. exact Hq2. }
  assert (K1 : 1 <= inject_Z (2 ^ k)).
  { change 1 with (inject_Z 1). rewrite <- Zle_Qle.
    assert (0 < 2 ^ k)%Z by (apply Z.pow_pos_nonneg; lia). lia. }
  rewrite T. rewrite R at 1. rewrite <- E3 in B.
  assert (U1 : inject_Z q * 2 ^ e <= t * 2 ^ e)
    by (apply Qmult_le_compat_r; [exact T1 | lra]).
  assert (U2 : t * 2 ^ e <= (inject_Z q + 1) * 2 ^ e)
    by (apply Qmult_le_compat_r; [lra | lra]).
  assert (U3 : 1 * 2 ^ e <= inject_Z (2 ^ k) * 2 ^ e)
    by (apply Qmult_le_compat_r; [exact K1 | lra]).
  rewrite <- E3 in U3.
  apply Qabs_Qle_condition in B. apply Qabs_Qle_condition.
  change (1 # 2 ^ 51) with (1 # 2251799813685248).
  rewrite R in L |- *.
  split; lra.
Qed.

End Accuracy.

(** ** Round trips of the conversions, in binary64 *)

Section RoundTripBinary64.

Local Open Scope string_scope.
Local Open Scope Q_scope.

Lemma B2Q_positive (m : positive) (e : Z) : 0 < B2Q (S754_finite false m e).
Proof.
  rewrite B2Q_finite. apply Qmult_lt_0_compat; [reflexivity | apply pow2_pos].
Qed.

Lemma lit_100 : (lit 100 0 : binary64) = S754_finite false 7036874417766400 (-46).
Proof. vm_compute; reflexivity. Qed.

Lemma B2Q_100 : B2Q (S754_finite false 7036874417766400 (-46)) == 100.
Proof. vm_compute; reflexivity. Qed.


Lemma lit_0_3048 :
  (lit 3048 4 : binary64) = S754_finite false 5490788665690109 (-54).
Proof. vm_compute; reflexivity. Qed.

Lemma B2Q_0_3048 :
  B2Q (S754_finite false 5490788665690109 (-54))
  == 5490788665690109 # 18014398509481984.
Proof. vm_compute; reflexivity. Qed.

Lemma lit_0_453592 :
  (lit 453592 6 : binary64) = S754_finite false 8171187048712952 (-54).
Proof. vm_compute; reflexivity. Qed.

Lemma B2Q_0_453592 :
  B2Q (S754_finite false 8171187048712952 (-54))
  == 8171187048712952 # 18014398509481984.
Proof. vm_compute; reflexivity. Qed.



End RoundTripBinary64.

Section RoundTripClaim.

Local Open Scope string_scope.




End RoundTripClaim.

(** ** The BMI of ordinary inputs *)

Section PositiveBMI.

Local Open Scope string_scope.
Local Open Scope Z_scope.

(** A height and a weight in the ordinary range convert to normal
    numbers. *)
Lemma convertHeight_normal (m : positive) (e : Z) (unit : string) :
  2 ^ 52 <= Z.pos m < 2 ^ 53 -> -1000 <= e <= 900 ->
  exists (M : positive) (e' : Z),
    convertHeight (S754_finite false m e : binary64) unit
      = S754_finite false M e' /\
    2 ^ 52 <= Z.pos M < 2 ^ 53 /\ e - 7 <= e' <= e.
Proof.
  intros Hm He. unfold convertHeight.
  destruct (String.eqb unit "ft"); cbn [mul div binary64_Number].
  - rewrite lit_0_3048.
    destruct (SFmul_normal_Z m 5490788665690109 e (-54) Hm)
      as (M & e' & E & HM & He' & _);
      [vm_compute; split; congruence | lia | lia |].
    exists M, e'. rewrite E. repeat split; lia.
  - rewrite lit_100.
    destruct (SFdiv_normal_Z m 7036874417766400 e (-46) Hm)
      as (M & e' & q & E & HM & He' & _);
      [vm_compute; split; congruence | lia | lia |].
    exists M, e'. rewrite E. repeat split; lia.
Qed.

Lemma convertWeight_normal (m : positive) (e : Z) (unit : string) :
  2 ^ 52 <= Z.pos m < 2 ^ 53 -> -1000 <= e <= 900 ->
  exists (M : positive) (e' : Z),
    convertWeight (S754_finite false m e : binary64) unit
      = S754_finite false M e' /\
    2 ^ 52 <= Z.pos M < 2 ^ 53 /\ e - 2 <= e' <= e.
Proof.
  intros Hm He. unfold convertWeight.
  destruct (String.eqb unit "lbs"); cbn [mul binary64_Number].
  - rewrite lit_0_453592.
    destruct (SFmul_normal_Z m 8171187048712952 e (-54) Hm)
      as (M & e' & E & HM & He' & _);
      [vm_compute; split; congruence | lia | lia |].
    exists M, e'. rewrite E. repeat split; lia.
  - exists m, e. repeat split; lia.
Qed.

(** X12: for a height and a weight in the ordinary range, from [2^-300]
    up to [2^300], in any units, the BMI that [onSubmit] stores is a
    positive normal binary64 number: above 0, and neither an infinity nor
    NaN. *)
Theorem bmi_positive
    (data : BMICalculation binary64) (result : State binary64) :
  normal_between (-352) 247 (height data) = true ->
  normal_between (-352) 247 (weight data) = true ->
  exists r : BMIResult binary64,
    onSubmit data result = Some r /\
    (bmi r > lit 0 0)%num /\
    normal_between (-1074) 971 (bmi r) = true.
Proof.
  intros Hh Hw. apply normal_between_spec in Hh, Hw.
  destruct Hh as (mh & eh & Eh & Hmh & Heh).
  destruct Hw as (mw & ew & Ew & Hmw & Hew).
  rewrite onSubmit_unfold. cbv zeta. rewrite Eh, Ew.
  destruct (convertHeight_normal mh eh (heightUnit data) Hmh)
    as (Mc & ec & Ec & HMc & Hec); [lia |].
  destruct (convertWeight_normal mw ew (weightUnit data) Hmw)
    as (Mk & ek & Ek & HMk & Hek); [lia |].
  rewrite Ec, Ek. cbn [mul div binary64_Number].
  destruct (SFmul_normal_Z Mc Mc ec ec HMc HMc)
    as (Ms & es & Es & HMs & Hes & _); [lia | lia |].
  rewrite Es.
  destruct (SFdiv_normal_Z Mk Ms ek es HMk HMs)
    as (Mb & eb & q & Eb & HMb & Heb & _); [lia | lia |].
  rewrite Eb.
  eexists. split; [reflexivity |]. cbn [bmi].
  split; [reflexivity |].
  apply normal_between_spec. exists Mb, eb.
  split; [reflexivity |]. split; [exact HMb | lia].
Qed.

Lemma bmi_positive_witness :
  let data : BMICalculation binary64 :=
    Build_BMICalculation (lit 30 0) (lit 59 1) (lit 160 0) "ft" "lbs" in
  normal_between (-352) 247 (height data) = true /\
  normal_between (-352) 247 (weight data) = true /\
  exists r : BMIResult binary64,
    onSubmit data None = Some r /\
    (bmi r > lit 0 0)%num /\
    normal_between (-1074) 971 (bmi r) = true.
Proof.
  intros data.
  assert (Hh : normal_between (-352) 247 (height data) = true)
    by (vm_compute; reflexivity).
  assert (Hw : normal_between (-352) 247 (weight data) = true)
    by (vm_compute; reflexivity).
  split; [exact Hh |]. split; [exact Hw |].
  exact (bmi_positive data None Hh Hw).
Defined.

End PositiveBMI.

(** ** The stored BMI and the exact BMI

    The program rounds after each of its operations; the formulas of the
    specification do not.  The stored BMI is compared here with the BMI
    that the same formula gives over the rationals. *)

Section Intervals.

Local Open Scope Q_scope.

Lemma between_weaken (lo hi lo' hi' x' x : Q) :
  between lo hi x' x -> 0 <= x -> lo' <= lo -> hi <= hi' ->
  between lo' hi' x' x.
Proof.
  intros [H1 H2] Hx Hlo Hhi. split.
  - apply Qle_trans with (x * lo); [| exact H1].
    rewrite !(Qmult_comm x). apply Qmult_le_compat_r; assumption.
  - apply Qle_trans with (x * hi); [exact H2 |].
    rewrite !(Qmult_comm x). apply Qmult_le_compat_r; assumption.
Qed.

Lemma between_trans (l1 h1 l2 h2 a b c : Q) :
  between l1 h1 a b -> between l2 h2 b c ->
  0 <= c -> 0 <= l1 -> 0 <= h1 -> 0 <= l2 ->
  between (l2 * l1) (h2 * h1) a c.
Proof.
  intros [A1 A2] [B1 B2] Hc Hl1 Hh1 Hl2. split.
  - apply Qle_trans with (b * l1); [| exact A1].
    rewrite Qmult_assoc. apply Qmult_le_compat_r; assumption.
  - apply Qle_trans with (b * h1); [exact A2 |].
    rewrite Qmult_assoc. apply Qmult_le_compat_r; assumption.
Qed.

Lemma between_mul (l1 h1 l2 h2 a x b y : Q) :
  between l1 h1 a x -> between l2 h2 b y ->
  0 <= x -> 0 <= y -> 0 <= l1 -> 0 <= l2 ->
  between (l1 * l2) (h1 * h2) (a * b) (x * y).
Proof.
  intros [A1 A2] [B1 B2] Hx Hy Hl1 Hl2.
  assert (Ha : 0 <= x * l1) by (apply Qmult_le_0_compat; assumption).
  assert (Hb : 0 <= y * l2) by (apply Qmult_le_0_compat; assumption).
  split.
  - setoid_replace (x * y * (l1 * l2)) with ((x * l1) * (y * l2)) by ring.
    apply Qmult_le_compat_nonneg; split; assumption.
  - setoid_replace (x * y * (h1 * h2)) with ((x * h1) * (y * h2)) by ring.
    apply Qmult_le_compat_nonneg; split; try assumption.
    + apply Qle_trans with (x * l1); assumption.
    + apply Qle_trans with (y * l2); assumption.
Qed.

Lemma between_inv (l h b y : Q) :
  between l h b y -> 0 < y -> 0 < l -> 0 < h ->
  between (/ h) (/ l) (/ b) (/ y).
Proof.
  intros [B1 B2] Hy Hl Hh.
  assert (Hyl : 0 < y * l) by (apply Qmult_lt_0_compat; assumption).
  assert (Hb : 0 < b) by (apply Qlt_le_trans with (y * l); assumption).
  split.
  - apply Qle_shift_inv_l; [exact Hb |].
    apply Qle_trans with (/ y * / h * (y * h)).
    + rewrite !(Qmult_comm (/ y * / h)).
      apply Qmult_le_compat_r; [exact B2 |].
      apply Qlt_le_weak, Qmult_lt_0_compat; apply Qinv_lt_0_compat; assumption.
    + apply Qle_lteq. right. field. split; lra.
  - apply Qle_shift_inv_r; [exact Hb |].
    apply Qle_trans with (/ y * / l * (y * l)).
    + apply Qle_lteq. right. field. split; lra.
    + rewrite !(Qmult_comm (/ y * / l)).
      apply Qmult_le_compat_r; [exact B1 |].
      apply Qlt_le_weak, Qmult_lt_0_compat; apply Qinv_lt_0_compat; assumption.
Qed.

Lemma between_div (l1 h1 l2 h2 a x b y : Q) :
  between l1 h1 a x -> between l2 h2 b y ->
  0 <= x -> 0 < y -> 0 <= l1 -> 0 < l2 -> 0 < h2 ->
  between (l1 / h2) (h1 / l2) (a / b) (x / y).
Proof.
  intros A B Hx Hy Hl1 Hl2 Hh2.
  apply between_mul; try assumption.
  - apply between_inv; assumption.
  - apply Qlt_le_weak, Qinv_lt_0_compat; exact Hy.
  - apply Qlt_le_weak, Qinv_lt_0_compat; exact Hh2.
Qed.

End Intervals.

Section ConversionAccuracy.

Local Open Scope string_scope.
Local Open Scope Q_scope.

Lemma mul_between (r p : Q) :
  0 < r -> Qabs (r - p) <= r * (1 # 2 ^ 52) ->
  between (4503599627370496 # 4503599627370497)
          (4503599627370496 # 4503599627370495) r p.
Proof.
  intros Hr H. apply Qabs_Qle_condition in H.
  change (1 # 2 ^ 52) with (1 # 4503599627370496) in H.
  unfold between. split; lra.
Qed.

Lemma div_between (r p : Q) :
  0 < r -> Qabs (r - p) <= r * (1 # 2 ^ 51) ->
  between (2251799813685248 # 2251799813685249)
          (2251799813685248 # 2251799813685247) r p.
Proof.
  intros Hr H. apply Qabs_Qle_condition in H.
  change (1 # 2 ^ 51) with (1 # 2251799813685248) in H.
  unfold between. split; lra.
Qed.

Lemma Q_lit_100 : Q_lit 100 0 == 100.
Proof. vm_compute; reflexivity. Qed.

Lemma Q_lit_0_3048 : Q_lit 3048 4 == 3048 # 10000.
Proof. vm_compute; reflexivity. Qed.

Lemma Q_lit_0_453592 : Q_lit 453592 6 == 453592 # 1000000.
Proof. vm_compute; reflexivity. Qed.

(** The converted height, next to the exact conversion of the same
    height: within 3 parts in [2^52]. *)
Lemma convertHeight_accurate (m : positive) (e : Z) (unit : string) :
  (2 ^ 52 <= Z.pos m < 2 ^ 53)%Z -> (-1000 <= e <= 900)%Z ->
  exists (M : positive) (e' : Z),
    convertHeight (S754_finite false m e : binary64) unit
      = S754_finite false M e' /\
    (2 ^ 52 <= Z.pos M < 2 ^ 53)%Z /\ (e - 7 <= e' <= e)%Z /\
    between (4503599627370493 # 4503599627370496)
            (4503599627370499 # 4503599627370496)
            (B2Q (S754_finite false M e'))
            (convertHeight (B2Q (S754_finite false m e)) unit).
Proof.
  intros Hm He. unfold convertHeight.
  pose proof (B2Q_positive m e) as PV.
  destruct (String.eqb unit "ft"); cbn [mul div binary64_Number Q_Number].
  - rewrite lit_0_3048.
    destruct (SFmul_accurate m 5490788665690109 e (-54) Hm)
      as (M & e' & E & HM & He' & Err);
      [vm_compute; split; congruence | lia | lia |].
    exists M, e'. rewrite E.
    split; [reflexivity |]. split; [exact HM |]. split; [lia |].
    rewrite B2Q_0_3048 in Err.
    pose proof (B2Q_positive M e') as PR.
    change (@lit Q Q_Number 3048 4) with (Q_lit 3048 4).
    unfold between. rewrite Q_lit_0_3048.
    apply Qabs_Qle_condition in Err.
    change (1 # 2 ^ 52) with (1 # 4503599627370496) in Err.
    set (r := B2Q (S754_finite false M e')) in *.
    set (V := B2Q (S754_finite false m e)) in *.
    split; lra.
  - rewrite lit_100.
    destruct (SFdiv_accurate m 7036874417766400 e (-46) Hm)
      as (M & e' & E & HM & He' & Err);
      [vm_compute; split; congruence | lia | lia |].
    exists M, e'. rewrite E.
    split; [reflexivity |]. split; [exact HM |]. split; [lia |].
    rewrite B2Q_100 in Err.
    pose proof (B2Q_positive M e') as PR.
    change (@lit Q Q_Number 100 0) with (Q_lit 100 0).
    unfold between. rewrite Q_lit_100.
    set (r := B2Q (S754_finite false M e')) in *.
    set (V := B2Q (S754_finite false m e)) in *.
    assert (D : V / 100 == V * (1 # 100)) by field. rewrite D in *.
    apply Qabs_Qle_condition in Err.
    change (1 # 2 ^ 51) with (1 # 2251799813685248) in Err.
    split; lra.
Qed.

(** The converted weight, next to the exact conversion of the same
    weight: within 2 parts in [2^52]. *)
Lemma convertWeight_accurate (m : positive) (e : Z) (unit : string) :
  (2 ^ 52 <= Z.pos m < 2 ^ 53)%Z -> (-1000 <= e <= 900)%Z ->
  exists (M : positive) (e' : Z),
    convertWeight (S754_finite false m e : binary64) unit
      = S754_finite false M e' /\
    (2 ^ 52 <= Z.pos M < 2 ^ 53)%Z /\ (e - 2 <= e' <= e)%Z /\
    between (4503599627370494 # 4503599627370496)
            (4503599627370498 # 4503599627370496)
            (B2Q (S754_finite false M e'))
            (convertWeight (B2Q (S754_finite false m e)) unit).
Proof.
  intros Hm He. unfold convertWeight.
  pose proof (B2Q_positive m e) as PV.
  destruct (String.eqb unit "lbs"); cbn [mul binary64_Number Q_Number].
  - rewrite lit_0_453592.
    destruct (SFmul_accurate m 8171187048712952 e (-54) Hm)
      as (M & e' & E & HM & He' & Err);
      [vm_compute; split; congruence | lia | lia |].
    exists M, e'. rewrite E.
    split; [reflexivity |]. split; [exact HM |]. split; [lia |].
    rewrite B2Q_0_453592 in Err.
    pose proof (B2Q_positive M e') as PR.
    change (@lit Q Q_Number 453592 6) with (Q_lit 453592 6).
    unfold between. rewrite Q_lit_0_453592.
    apply Qabs_Qle_condition in Err.
    change (1 # 2 ^ 52) with (1 # 4503599627370496) in Err.
    set (r := B2Q (S754_finite false M e')) in *.
    set (V := B2Q (S754_finite false m e)) in *.
    split; lra.
  - exists m, e.
    split; [reflexivity |]. split; [exact Hm |]. split; [lia |].
    unfold between.
    set (V := B2Q (S754_finite false m e)) in *.
    split; lra.
Qed.

End ConversionAccuracy.

Section OrderOfNormals.

Local Open Scope Q_scope.

(** Among normal numbers, the one of the smaller exponent is the smaller. *)
Lemma normal_exponent_lt (m1 m2 : positive) (e1 e2 : Z) :
  (2 ^ 52 <= Z.pos m1 < 2 ^ 53)%Z -> (2 ^ 52 <= Z.pos m2 < 2 ^ 53)%Z ->
  (e1 < e2)%Z ->
  B2Q (S754_finite false m1 e1) < B2Q (S754_finite false m2 e2).
Proof.
  intros H1 H2 He. rewrite !B2Q_finite.
  set (k := (e2 - e1)%Z).
  assert (Hk : (2 ^ 1 <= 2 ^ k)%Z) by (apply Z.pow_le_mono_r; unfold k; lia).
  assert (Hz : (Z.pos m1 < Z.pos m2 * 2 ^ k)%Z) by nia.
  assert (E2 : 2 ^ e2 == inject_Z (2 ^ k) * 2 ^ e1).
  { rewrite pow2_inject by (unfold k; lia). rewrite <- pow2_add.
    replace (k + e1)%Z with e2 by (unfold k; lia). reflexivity. }
  rewrite E2, Qmult_assoc, <- inject_Z_mult.
  apply Qmult_lt_compat_r; [apply pow2_pos |].
  rewrite <- Zlt_Qlt. exact Hz.
Qed.

(** The comparisons of the program, on normal numbers, are the order of
    the rationals. *)
Lemma normal_order (m1 m2 : positive) (e1 e2 : Z) :
  (2 ^ 52 <= Z.pos m1 < 2 ^ 53)%Z -> (2 ^ 52 <= Z.pos m2 < 2 ^ 53)%Z ->
  (SFltb (S754_finite false m1 e1) (S754_finite false m2 e2) = true
   <-> B2Q (S754_finite false m1 e1) < B2Q (S754_finite false m2 e2)) /\
  (SFleb (S754_finite false m1 e1) (S754_finite false m2 e2) = true
   <-> B2Q (S754_finite false m1 e1) <= B2Q (S754_finite false m2 e2)).
Proof.
  intros H1 H2. unfold SFltb, SFleb. cbn [SFcompare].
  change (Pos.compare_cont Eq m1 m2) with (Pos.compare m1 m2).
  destruct (Z.compare_spec e1 e2) as [E | L | G].
  - subst e2. rewrite !B2Q_finite.
    pose proof (pow2_pos e1) as Hu.
    destruct (Pos.compare_spec m1 m2) as [Em | Lm | Gm].
    + subst m2. split; split; intros H; try discriminate; try reflexivity.
      * exfalso. revert H. apply Qlt_irrefl.
      * apply Qle_refl.
    + assert (X : inject_Z (Z.pos m1) * 2 ^ e1 < inject_Z (Z.pos m2) * 2 ^ e1).
      { apply Qmult_lt_compat_r; [exact Hu |]. rewrite <- Zlt_Qlt. lia. }
      split; split; intros _; try reflexivity; [exact X | apply Qlt_le_weak; exact X].
    + assert (X : inject_Z (Z.pos m2) * 2 ^ e1 < inject_Z (Z.pos m1) * 2 ^ e1).
      { apply Qmult_lt_compat_r; [exact Hu |]. rewrite <- Zlt_Qlt. lia. }
      split; split; intros H; try discriminate; exfalso; lra.
  - pose proof (normal_exponent_lt m1 m2 e1 e2 H1 H2 L) as X.
    split; split; intros _; try reflexivity; [exact X | apply Qlt_le_weak; exact X].
  - pose proof (normal_exponent_lt m2 m1 e2 e1 H2 H1 G) as X.
    split; split; intros H; try discriminate; exfalso; lra.
Qed.

(** A normal number close to a rational [E] stands, to a threshold that
    [E] is clear of, as [E] does. *)
Lemma threshold_agrees (M T : positive) (e eT : Z) (E tQ : Q) :
  (2 ^ 52 <= Z.pos M < 2 ^ 53)%Z -> (2 ^ 52 <= Z.pos T < 2 ^ 53)%Z ->
  B2Q (S754_finite false T eT) == tQ ->
  between (281474976710655 # 281474976710656)
          (281474976710657 # 281474976710656)
          (B2Q (S754_finite false M e)) E ->
  E * (1 # 2 ^ 48) < Qabs (E - tQ) ->
  SFltb (S754_finite false M e) (S754_finite false T eT)
    = negb (Qle_bool tQ E) /\
  SFleb (S754_finite false T eT) (S754_finite false M e) = Qle_bool tQ E.
Proof.
  intros HM HT Et [B1 B2] Hclear.
  destruct (normal_order M T e eT HM HT) as [Lt _].
  destruct (normal_order T M eT e HT HM) as [_ Le].
  rewrite Et in Lt, Le.
  change (1 # 2 ^ 48) with (1 # 281474976710656) in Hclear.
  set (b := B2Q (S754_finite false M e)) in *.
  destruct (Qlt_le_dec E tQ) as [Below | Above].
  - rewrite Qabs_neg in Hclear by lra.
    assert (X : b < tQ) by lra.
    assert (Y : Qle_bool tQ E = false).
    { destruct (Qle_bool tQ E) eqn:Q; [| reflexivity].
      apply Qle_bool_iff in Q. lra. }
    rewrite Y. split.
    + apply Lt. exact X.
    + apply not_true_is_false. intros Q. apply Le in Q. lra.
  - rewrite Qabs_pos in Hclear by lra.
    assert (X : tQ <= b) by lra.
    assert (Y : Qle_bool tQ E = true) by (apply Qle_bool_iff; exact Above).
    rewrite Y. split.
    + apply not_true_is_false. intros Q. apply Lt in Q. lra.
    + apply Le. exact X.
Qed.

End OrderOfNormals.

Section StoredAndExact.

Local Open Scope string_scope.
Local Open Scope Q_scope.

Lemma between_positive (lo hi x' x : Q) :
  0 < x' -> 0 < hi -> between lo hi x' x -> 0 < x.
Proof.
  intros Hx' Hhi [_ H].
  destruct (Qlt_le_dec 0 x) as [P | Np]; [exact P | exfalso].
  assert (x * hi <= 0).
  { setoid_replace 0 with (0 * hi) by ring.
    apply Qmult_le_compat_r; [exact Np | apply Qlt_le_weak; exact Hhi]. }
  lra.
Qed.

(** The quotient that [onSubmit] computes, for a height and a weight in
    the ordinary range: a normal number, within one part in [2^48] of the
    exact quotient. *)
Lemma bmi_between (data : BMICalculation binary64) :
  normal_between (-352) 247 (height data) = true ->
  normal_between (-352) 247 (weight data) = true ->
  exists (M : positive) (e : Z),
    (convertWeight (weight data) (weightUnit data)
     / (convertHeight (height data) (heightUnit data)
        * convertHeight (height data) (heightUnit data)))%num
      = S754_finite false M e /\
    (2 ^ 52 <= Z.pos M < 2 ^ 53)%Z /\
    between (281474976710655 # 281474976710656)
            (281474976710657 # 281474976710656)
            (B2Q (S754_finite false M e))
            (exact_bmi data) /\
    0 <= exact_bmi data.
Proof.
  intros Hh Hw. apply normal_between_spec in Hh, Hw.
  destruct Hh as (mh & eh & Eh & Hmh & Heh).
  destruct Hw as (mw & ew & Ew & Hmw & Hew).
  unfold exact_bmi. rewrite Eh, Ew.
  destruct (convertHeight_accurate mh eh (heightUnit data) Hmh)
    as (Mc & ec & Ec & HMc & Hec & Bc); [lia |].
  destruct (convertWeight_accurate mw ew (weightUnit data) Hmw)
    as (Mk & ek & Ek & HMk & Hek & Bk); [lia |].
  rewrite Ec, Ek. cbn [mul div binary64_Number Q_Number].
  destruct (SFmul_accurate Mc Mc ec ec HMc HMc)
    as (Ms & es & Es & HMs & Hes & ErrS); [lia | lia |].
  rewrite Es.
  destruct (SFdiv_accurate Mk Ms ek es HMk HMs)
    as (Mb & eb & Eb & HMb & Heb & ErrB); [lia | lia |].
  rewrite Eb.
  exists Mb, eb. split; [reflexivity |]. split; [exact HMb |].
  pose proof (B2Q_positive Mc ec) as Pc.
  pose proof (B2Q_positive Mk ek) as Pk.
  pose proof (B2Q_positive Ms es) as Ps.
  pose proof (B2Q_positive Mb eb) as Pb.
  set (c := B2Q (S754_finite false Mc ec)) in *.
  set (k := B2Q (S754_finite false Mk ek)) in *.
  set (s := B2Q (S754_finite false Ms es)) in *.
  set (b := B2Q (S754_finite false Mb eb)) in *.
  set (X := convertHeight (B2Q (S754_finite false mh eh)) (heightUnit data)) in *.
  set (Y := convertWeight (B2Q (S754_finite false mw ew)) (weightUnit data)) in *.
  assert (PX : 0 < X)
    by (apply (between_positive _ _ _ _ Pc) in Bc; [exact Bc | reflexivity]).
  assert (PY : 0 < Y)
    by (apply (between_positive _ _ _ _ Pk) in Bk; [exact Bk | reflexivity]).
  assert (PXX : 0 < X * X) by (apply Qmult_lt_0_compat; assumption).
  pose proof (mul_between s (c * c) Ps ErrS) as Bs.
  pose proof (div_between b (k / s) Pb ErrB) as Bb.
  assert (PQ : 0 <= Y / (X * X)).
  { apply Qlt_le_weak, Qlt_shift_div_l; [exact PXX | lra]. }
  pose proof (between_mul _ _ _ _ _ _ _ _ Bc Bc
                (Qlt_le_weak _ _ PX) (Qlt_le_weak _ _ PX)) as Bcc.
  specialize (Bcc ltac:(vm_compute; discriminate) ltac:(vm_compute; discriminate)).
  pose proof (between_trans _ _ _ _ _ _ _ Bs Bcc (Qlt_le_weak _ _ PXX)) as Bsx.
  specialize (Bsx ltac:(vm_compute; discriminate) ltac:(vm_compute; discriminate)
                  ltac:(vm_compute; discriminate)).
  pose proof (between_div _ _ _ _ _ _ _ _ Bk Bsx (Qlt_le_weak _ _ PY) PXX) as Bq.
  specialize (Bq ltac:(vm_compute; discriminate) ltac:(vm_compute; reflexivity)
                 ltac:(vm_compute; reflexivity)).
  pose proof (between_trans _ _ _ _ _ _ _ Bb Bq PQ) as Bfin.
  specialize (Bfin ltac:(vm_compute; discriminate) ltac:(vm_compute; discriminate)
                   ltac:(vm_compute; discriminate)).
  split; [| exact PQ].
  apply (between_weaken _ _ _ _ _ _ Bfin PQ); vm_compute; discriminate.
Qed.

(** X17: the BMI that [onSubmit] stores, next to the BMI of the formula
    computed exactly.  For a height and a weight from [2^-300] up to
    [2^300], in any units, the stored BMI is within one part in [2^48] of
    the exact quotient of the exactly converted weight by the exact square
    of the exactly converted height. *)
Theorem bmi_accurate
    (data : BMICalculation binary64) (result : State binary64) :
  normal_between (-352) 247 (height data) = true ->
  normal_between (-352) 247 (weight data) = true ->
  exists r : BMIResult binary64,
    onSubmit data result = Some r /\
    Qabs (B2Q (bmi r) - exact_bmi data) <= exact_bmi data * (1 # 2 ^ 48).
Proof.
  intros Hh Hw.
  destruct (bmi_between data Hh Hw) as (M & e & E & _ & [F1 F2] & _).
  rewrite onSubmit_unfold. cbv zeta. rewrite E.
  eexists. split; [reflexivity |]. cbn [bmi].
  apply Qabs_Qle_condition.
  change (1 # 2 ^ 48) with (1 # 281474976710656).
  split; lra.
Qed.

Lemma bmi_accurate_witness :
  let data : BMICalculation binary64 :=
    Build_BMICalculation (lit 30 0) (lit 59 1) (lit 160 0) "ft" "lbs" in
  normal_between (-352) 247 (height data) = true /\
  normal_between (-352) 247 (weight data) = true /\
  exists r : BMIResult binary64,
    onSubmit data None = Some r /\
    Qabs (B2Q (bmi r) - exact_bmi data) <= exact_bmi data * (1 # 2 ^ 48).
Proof.
  intros data.
  assert (Hh : normal_between (-352) 247 (height data) = true)
    by (vm_compute; reflexivity).
  assert (Hw : normal_between (-352) 247 (weight data) = true)
    by (vm_compute; reflexivity).
  split; [exact Hh |]. split; [exact Hw |].
  exact (bmi_accurate data None Hh Hw).
Defined.

Lemma lit_18_5 :
  (lit 185 1 : binary64) = S754_finite false 5207287069147136 (-48).
Proof. vm_compute; reflexivity. Qed.

Lemma lit_25 :
  (lit 25 0 : binary64) = S754_finite false 7036874417766400 (-48).
Proof. vm_compute; reflexivity. Qed.

Lemma lit_30 :
  (lit 30 0 : binary64) = S754_finite false 8444249301319680 (-48).
Proof. vm_compute; reflexivity. Qed.

(** X18: the category that [onSubmit] stores is the category of the exact
    BMI, unless the exact BMI is next to a threshold.  For a height and a
    weight from [2^-300] up to [2^300], in any units, when the exact BMI
    differs from each of 18.5, 25 and 30 by more than one part in [2^48]
    of itself, the category, the description and the color stored are
    those of [getBMICategory] at the exact BMI. *)
Theorem category_accurate
    (data : BMICalculation binary64) (result : State binary64) :
  normal_between (-352) 247 (height data) = true ->
  normal_between (-352) 247 (weight data) = true ->
  exact_bmi data * (1 # 2 ^ 48) < Qabs (exact_bmi data - lit 185 1) ->
  exact_bmi data * (1 # 2 ^ 48) < Qabs (exact_bmi data - lit 25 0) ->
  exact_bmi data * (1 # 2 ^ 48) < Qabs (exact_bmi data - lit 30 0) ->
  exists r : BMIResult binary64,
    onSubmit data result = Some r /\
    category r = CategoryInfo.category (getBMICategory (exact_bmi data)) /\
    description r = CategoryInfo.description (getBMICategory (exact_bmi data)) /\
    color r = CategoryInfo.color (getBMICategory (exact_bmi data)).
Proof.
  intros Hh Hw C1 C2 C3.
  destruct (bmi_between data Hh Hw) as (M & e & E & HM & B & _).
  rewrite onSubmit_unfold. cbv zeta. rewrite E.
  eexists. split; [reflexivity |]. cbn [category description color].
  assert (G : getBMICategory (S754_finite false M e : binary64)
              = getBMICategory (exact_bmi data)).
  { unfold getBMICategory.
    cbn [ltb leb binary64_Number Q_Number].
    rewrite lit_18_5, lit_25, lit_30.
    destruct (threshold_agrees M 5207287069147136 e (-48)
                (exact_bmi data) (lit 185 1) HM)
      as [L1 G1]; [vm_compute; split; congruence | vm_compute; reflexivity
                  | exact B | exact C1 |].
    destruct (threshold_agrees M 7036874417766400 e (-48)
                (exact_bmi data) (lit 25 0) HM)
      as [L2 G2]; [vm_compute; split; congruence | vm_compute; reflexivity
                  | exact B | exact C2 |].
    destruct (threshold_agrees M 8444249301319680 e (-48)
                (exact_bmi data) (lit 30 0) HM)
      as [L3 G3]; [vm_compute; split; congruence | vm_compute; reflexivity
                  | exact B | exact C3 |].
    rewrite L1, G1, L2, G2, L3. reflexivity. }
  rewrite G. repeat split; reflexivity.
Qed.

Lemma category_accurate_witness :
  let data : BMICalculation binary64 :=
    Build_BMICalculation (lit 30 0) (lit 59 1) (lit 160 0) "ft" "lbs" in
  normal_between (-352) 247 (height data) = true /\
  normal_between (-352) 247 (weight data) = true /\
  exact_bmi data * (1 # 2 ^ 48) < Qabs (exact_bmi data - lit 185 1) /\
  exact_bmi data * (1 # 2 ^ 48) < Qabs (exact_bmi data - lit 25 0) /\
  exact_bmi data * (1 # 2 ^ 48) < Qabs (exact_bmi data - lit 30 0) /\
  exists r : BMIResult binary64,
    onSubmit data None = Some r /\
    category r = CategoryInfo.category (getBMICategory (exact_bmi data)) /\
    description r = CategoryInfo.description (getBMICategory (exact_bmi data)) /\
    color r = CategoryInfo.color (getBMICategory (exact_bmi data)).
Proof.
  intros data.
  assert (Hh : normal_between (-352) 247 (height data) = true)
    by (vm_compute; reflexivity).
  assert (Hw : normal_between (-352) 247 (weight data) = true)
    by (vm_compute; reflexivity).
  assert (C1 : exact_bmi data * (1 # 2 ^ 48) < Qabs (exact_bmi data - lit 185 1))
    by (vm_compute; reflexivity).
  assert (C2 : exact_bmi data * (1 # 2 ^ 48) < Qabs (exact_bmi data - lit 25 0))
    by (vm_compute; reflexivity).
  assert (C3 : exact_bmi data * (1 # 2 ^ 48) < Qabs (exact_bmi data - lit 30 0))
    by (vm_compute; reflexivity).
  split; [exact Hh |]. split; [exact Hw |].
  split; [exact C1 |]. split; [exact C2 |]. split; [exact C3 |].
  exact (category_accurate data None Hh Hw C1 C2 C3).
Defined.

(** At a threshold the two part: for 160 cm and 64 kg the exact BMI is 25,
    which is Overweight, and the program stores 24.999999999999996, which
    is Normal Weight. *)
Example category_at_threshold :
  let data : BMICalculation binary64 :=
    Build_BMICalculation (lit 30 0) (lit 160 0) (lit 64 0) "cm" "kg" in
  exact_bmi data == 25 /\
  CategoryInfo.category (getBMICategory (exact_bmi data)) = "Overweight" /\
  option_map category (onSubmit data None) = Some "Normal Weight" /\
  option_map (fun r => B2Q (bmi r)) (onSubmit data None)
    = Some (7036874417766399 # 281474976710656).
Proof.
  intros data.
  split; [vm_compute; reflexivity |]. split; [vm_compute; reflexivity |].
  rewrite onSubmit_unfold. split; vm_compute; reflexivity.
Qed.

End StoredAndExact.

(** ** A height of zero *)

Section ZeroHeight.

Local Open Scope string_scope.
Local Open Scope Z_scope.

Lemma shr_nonneg (mrs : shr_record) (e n : Z) :
  0 <= shr_m mrs -> 0 <= shr_m (fst (shr mrs e n)).
Proof.
  intros Hm. unfold shr. destruct n as [| p | p]; cbn [fst]; try exact Hm.
  rewrite iter_shr_1_m by exact Hm. apply Z.div_pos; [exact Hm |].
  apply Z.pow_pos_nonneg; lia.
Qed.

(** Rounding a positive mantissa never gives NaN: the result is a zero, a
    finite number or an infinity, of the sign given. *)
Lemma binary_round_aux_signed (s : bool) (m : positive) (e : Z) (l : location) :
  binary_round_aux prec emax s (Z.pos m) e l = S754_zero s \/
  binary_round_aux prec emax s (Z.pos m) e l = S754_infinity s \/
  exists M e', binary_round_aux prec emax s (Z.pos m) e l = S754_finite s M e'.
Proof.
  unfold binary_round_aux.
  assert (H1 : 0 <= shr_m (fst (shr_fexp prec emax (Z.pos m) e l))).
  { unfold shr_fexp. apply shr_nonneg. rewrite shr_record_of_loc_m. lia. }
  destruct (shr_fexp prec emax (Z.pos m) e l) as [mrs' e']. cbn [fst] in H1.
  set (M2 := round_nearest_even (shr_m mrs') (loc_of_shr_record mrs')).
  assert (H2 : 0 <= M2).
  { unfold M2.
    destruct (round_nearest_even_cases (shr_m mrs') (loc_of_shr_record mrs'))
      as [-> | ->]; lia. }
  assert (H3 : 0 <= shr_m (fst (shr_fexp prec emax M2 e' loc_Exact))).
  { unfold shr_fexp. apply shr_nonneg. rewrite shr_record_of_loc_m. exact H2. }
  destruct (shr_fexp prec emax M2 e' loc_Exact) as [mrs'' e''].
  cbn [fst] in H3.
  destruct (shr_m mrs'') as [| p | p]; [tauto | | lia].
  destruct (e'' <=? emax - prec); [right; right; eauto | tauto].
Qed.

(** A number that compares equal to 0 is one of the two zeros. *)
Lemma eqb_zero (x : binary64) :
  eqb x (lit 0 0) = true <-> exists s, x = S754_zero s.
Proof.
  change (lit 0 0 : binary64) with (S754_zero false). split.
  - destruct x as [s | s | | s m e]; cbn; try discriminate; eauto;
      destruct s; discriminate.
  - intros [s ->]. reflexivity.
Qed.

(** A number above 0 is a positive finite number or the positive
    infinity. *)
Lemma above_zero (x : binary64) :
  (x > lit 0 0)%num ->
  x = S754_infinity false \/ exists m e, x = S754_finite false m e.
Proof.
  change (lit 0 0 : binary64) with (S754_zero false).
  destruct x as [s | s | | s m e]; cbn; try discriminate;
    destruct s; try discriminate; eauto.
Qed.

(** X16: the engine does not check its input.  Given a height of zero
    (which the schema and the effect both keep out) and a weight above
    zero, [onSubmit] divides by zero.  The BMI it stores is the positive
    infinity, except when the converted weight is itself zero, where it is
    NaN; that happens only to a weight in pounds that underflows, never to
    one in kilograms.  The category is Obese in both cases. *)
Theorem zero_height_is_obese
    (data : BMICalculation binary64) (result : State binary64) :
  eqb (height data) (lit 0 0) = true ->
  (weight data > lit 0 0)%num ->
  exists r : BMIResult binary64,
    onSubmit data result = Some r /\
    bmi r = (if eqb (convertWeight (weight data) (weightUnit data)) (lit 0 0)
             then S754_nan else S754_infinity false) /\
    (weightUnit data <> "lbs" -> bmi r = S754_infinity false) /\
    category r = "Obese".
Proof.
  intros Hh Hw.
  set (cw := convertWeight (weight data) (weightUnit data)).
  assert (Hz : (convertHeight (height data) (heightUnit data)
                * convertHeight (height data) (heightUnit data))%num
               = S754_zero false).
  { apply eqb_zero in Hh. destruct Hh as [s ->]. unfold convertHeight.
    destruct (String.eqb (heightUnit data) "ft"), s; vm_compute; reflexivity. }
  assert (Hc : cw = S754_infinity false \/ cw = S754_zero false \/
               exists m e, cw = S754_finite false m e).
  { unfold cw, convertWeight. apply above_zero in Hw.
    destruct (String.eqb (weightUnit data) "lbs").
    - destruct Hw as [-> | (m & e & ->)]; [left; vm_compute; reflexivity |].
      rewrite lit_0_453592. cbn [mul binary64_Number SFmul xorb].
      destruct (binary_round_aux_signed false (m * 8171187048712952)
                  (e + -54) loc_Exact) as [H | [H | H]]; tauto.
    - destruct Hw as [-> | H]; tauto. }
  assert (HB : (cw / S754_zero false)%num
               = if eqb cw (lit 0 0) then S754_nan else S754_infinity false).
  { destruct Hc as [-> | [-> | (m & e & ->)]]; reflexivity. }
  rewrite onSubmit_unfold. cbv zeta. fold cw. rewrite Hz.
  eexists. split; [reflexivity |]. cbn [bmi category].
  split; [exact HB |]. split.
  - intros Hu. rewrite HB. unfold cw, convertWeight.
    destruct (String.eqb_spec (weightUnit data) "lbs") as [E | _];
      [contradiction |].
    apply above_zero in Hw.
    destruct Hw as [-> | (m & e & ->)]; reflexivity.
  - rewrite HB. destruct (eqb cw (lit 0 0)); vm_compute; reflexivity.
Qed.

Lemma zero_height_is_obese_witness :
  let data : BMICalculation binary64 :=
    Build_BMICalculation (lit 30 0) (lit 0 0) (lit 75 0) "cm" "kg" in
  let data' : BMICalculation binary64 :=
    Build_BMICalculation (lit 30 0) (lit 0 0) (S754_finite false 1 (-1074))
      "cm" "lbs" in
  eqb (height data) (lit 0 0) = true /\
  (weight data > lit 0 0)%num /\ (weight data' > lit 0 0)%num /\
  (exists r : BMIResult binary64,
     onSubmit data None = Some r /\ bmi r = S754_infinity false /\
     category r = "Obese") /\
  (exists r : BMIResult binary64,
     onSubmit data' None = Some r /\ bmi r = S754_nan /\
     category r = "Obese").
Proof.
  intros data data'.
  assert (H1 : eqb (height data) (lit 0 0) = true) by reflexivity.
  assert (H2 : (weight data > lit 0 0)%num) by reflexivity.
  assert (H3 : (weight data' > lit 0 0)%num) by reflexivity.
  split; [exact H1 |]. split; [exact H2 |]. split; [exact H3 |].
  split.
  - destruct (zero_height_is_obese data None H1 H2) as (r & E & _ & B & C).
    exists r. split; [exact E |]. split; [| exact C].
    apply B. discriminate.
  - destruct (zero_height_is_obese data' None H1 H3) as (r & E & B & _ & C).
    exists r. split; [exact E |]. split; [| exact C].
    rewrite B. vm_compute. reflexivity.
Defined.

End ZeroHeight.
